(** * Report field and operator resolution of [handleCreateReport]

    A shallow embedding of the report-creation handler of
    [src/tools/createFlow.ts] (function [handleCreateReport] with its local
    helpers [buildReportFieldMap], [mapToCanonicalReportField],
    [throwIfInvalidFields], [getValidOperatorsForField] and
    [normalizeOperatorForField]) and of the [salesforce_create_report] case
    of the tool dispatcher in [src/index.ts].

    Conventions of the embedding.
    - A JavaScript string is a [string]: the sequence of its code units, each
      below 256.  [toUpperCase] and [toLowerCase] are kept abstract in the
      engine (section variables); the instance used to evaluate the engine
      on concrete inputs maps the ASCII letters.
    - [undefined] is [None]; an optional property of type [T] is an
      [option T].
    - [reportFieldMap] is an ordered object ([JsObj]): the handler iterates
      over its entries and its values, so their order is observable.
      [reportFieldTypeMap] and [operatorMap] are only ever looked up and are
      finite maps ([gmap]) of their own properties.  The three are plain
      objects, so a read also finds what they inherit from
      [Object.prototype].
    - An entry of [groupingsDown] ([Array<any>]) is [None] when it is
      [null], the one value of an array of arguments on which a property
      read throws.
    - A thrown value is carried by the [Err] case of [Res]; [await] on a
      rejected promise is [Err] as well.  Logging is not modelled. *)

From Stdlib Require Import Ascii NArith Bool.
From Stdlib Require String.
From stdpp Require Import base option list gmap strings pretty.

Set Warnings "-register-all".

(** ** String primitives of the host language *)

Module JsString.

Definition code (c : ascii) : N := N_of_ascii c.

Definition in_range (lo hi : N) (c : ascii) : bool :=
  ((lo <=? code c) && (code c <=? hi))%N.

Definition is_lower (c : ascii) : bool := in_range 97 122 c.
Definition is_upper (c : ascii) : bool := in_range 65 90 c.
Definition is_digit (c : ascii) : bool := in_range 48 57 c.
Definition is_underscore (c : ascii) : bool := (code c =? 95)%N.

(** The class [\s] on code units below 256: TAB, LF, VT, FF, CR, SPACE and
    NO-BREAK SPACE. *)
Definition is_space (c : ascii) : bool :=
  in_range 9 13 c || (code c =? 32)%N || (code c =? 160)%N.

(** The class [[a-zA-Z0-9_]]. *)
Definition is_word (c : ascii) : bool :=
  is_lower c || is_upper c || is_digit c || is_underscore c.

Fixpoint map (f : ascii -> ascii) (s : string) : string :=
  match s with
  | EmptyString => EmptyString
  | String c s' => String (f c) (map f s')
  end.

Fixpoint filter (p : ascii -> bool) (s : string) : string :=
  match s with
  | EmptyString => EmptyString
  | String c s' => if p c then String c (filter p s') else filter p s'
  end.

Definition upper_char (c : ascii) : ascii :=
  if is_lower c then ascii_of_N (code c - 32) else c.

Definition lower_char (c : ascii) : ascii :=
  if is_upper c then ascii_of_N (code c + 32) else c.

(** Case mapping restricted to the ASCII letters. *)
Definition ascii_toUpperCase : string -> string := map upper_char.
Definition ascii_toLowerCase : string -> string := map lower_char.

(** [s.replace(/\s|_/g, '')] *)
Definition stripSpaceUnderscore : string -> string :=
  filter (fun c => negb (is_space c || is_underscore c)).

(** [s.replace(/[^a-zA-Z0-9_]/g, '_')] *)
Definition replaceNonWord : string -> string :=
  map (fun c => if is_word c then c else "_"%char).

Fixpoint trimStart (s : string) : string :=
  match s with
  | EmptyString => EmptyString
  | String c s' => if is_space c then trimStart s' else s
  end.

Fixpoint trimEnd (s : string) : string :=
  match s with
  | EmptyString => EmptyString
  | String c s' =>
      match trimEnd s' with
      | EmptyString => if is_space c then EmptyString else String c EmptyString
      | t => String c t
      end
  end.

(** [s.trim()] *)
Definition trim (s : string) : string := trimEnd (trimStart s).

(** [l.join(sep)] *)
Fixpoint join (sep : string) (l : list string) : string :=
  match l with
  | [] => ""
  | [x] => x
  | x :: l' => x +:+ sep +:+ join sep l'
  end.

(** [t] occurs in [s]. *)
Definition contains (s t : string) : Prop :=
  exists pre post, s = pre +:+ t +:+ post.

End JsString.

(** ** Plain objects

    [reportFieldMap], [reportFieldTypeMap] and [operatorMap] are plain
    objects used as dictionaries.  A read [o[k]] finds the own property
    [k] or else the member of [Object.prototype] of that name; an
    assignment [o[k] = v] of a string creates or updates an own property,
    except under the name [__proto__], whose setter ignores a value that is
    not an object.  [Object.entries] and [Object.values] enumerate the own
    properties: those whose key is an array index first, by ascending index,
    then the others in the order of their creation. *)

(** What a read [o[k]] gives when it is not [undefined]: the string of an
    own property, or the member of [Object.prototype] found under
    [property] (a function, or [Object.prototype] itself for [__proto__]). *)
Inductive JsValue :=
| Str (s : string)
| Inherited (property : string).

#[global] Instance JsValue_eq_dec : EqDecision JsValue.
Proof. solve_decision. Defined.

(** Truthiness of such a value: every object is truthy. *)
Definition valueTruthy (v : option JsValue) : bool :=
  match v with
  | Some (Str s) => negb (bool_decide (s = ""))
  | Some (Inherited _) => true
  | None => false
  end.

Module JsObj.

(** The property names of [Object.prototype]. *)
Definition inheritedProperties : list string :=
  ["constructor"; "__defineGetter__"; "__defineSetter__"; "hasOwnProperty";
   "__lookupGetter__"; "__lookupSetter__"; "isPrototypeOf";
   "propertyIsEnumerable"; "toString"; "valueOf"; "__proto__";
   "toLocaleString"].

Definition inherited (k : string) : bool :=
  bool_decide (k ∈ inheritedProperties).

(** The number written by a string of decimal digits, continuing [acc]. *)
Fixpoint digits (acc : N) (s : string) : option N :=
  match s with
  | EmptyString => Some acc
  | String c s' =>
      if JsString.is_digit c
      then digits (acc * 10 + (JsString.code c - 48))%N s'
      else None
  end.

(** The array index that a property key denotes: the key is the canonical
    decimal notation of a number below [2^32 - 1]. *)
Definition arrayIndex (k : string) : option N :=
  match k with
  | EmptyString => None
  | String c s' =>
      if (JsString.code c =? 48)%N
      then (if decide (s' = "") then Some 0%N else None)
      else
        match digits 0 k with
        | Some n => if (n <=? 4294967294)%N then Some n else None
        | None => None
        end
  end.

Section Obj.
Context {V : Type}.

(** The own property [k]. *)
Fixpoint get (k : string) (o : list (string * V)) : option V :=
  match o with
  | [] => None
  | (k', v) :: o' => if decide (k = k') then Some v else get k o'
  end.

(** The update of the own property [k], which keeps its position. *)
Fixpoint replace (k : string) (v : V) (o : list (string * V)) : list (string * V) :=
  match o with
  | [] => []
  | (k', v') :: o' =>
      if decide (k = k') then (k, v) :: o' else (k', v') :: replace k v o'
  end.

(** The creation of the own property [k] with array index [n]: after the
    array indices below [n], ahead of everything else. *)
Fixpoint insertIndex (n : N) (k : string) (v : V) (o : list (string * V))
    : list (string * V) :=
  match o with
  | [] => [(k, v)]
  | (k', v') :: o' =>
      match arrayIndex k' with
      | Some n' =>
          if (n' <? n)%N then (k', v') :: insertIndex n k v o' else (k, v) :: o
      | None => (k, v) :: o
      end
  end.

(** [o[k] = v] for a value [v] that is not an object. *)
Definition set (k : string) (v : V) (o : list (string * V)) : list (string * V) :=
  if decide (k = "__proto__") then o
  else
    match get k o with
    | Some _ => replace k v o
    | None =>
        match arrayIndex k with
        | Some n => insertIndex n k v o
        | None => o ++ [(k, v)]
        end
    end.

Definition keys (o : list (string * V)) : list string := o.*1.
Definition values (o : list (string * V)) : list V := o.*2.
End Obj.

(** [o[k]] on an object with string values. *)
Definition read (k : string) (o : list (string * string)) : option JsValue :=
  match get k o with
  | Some v => Some (Str v)
  | None => if inherited k then Some (Inherited k) else None
  end.

(** The same on an object whose enumeration order is never observed. *)
Definition readMap (k : string) (o : gmap string string) : option JsValue :=
  match o !! k with
  | Some v => Some (Str v)
  | None => if inherited k then Some (Inherited k) else None
  end.

(** [o[k] = v] on such an object. *)
Definition assign (k : string) (v : string) (o : gmap string string)
    : gmap string string :=
  if decide (k = "__proto__") then o else <[k := v]> o.

End JsObj.

(** [new Set(l)], as the list of its members in insertion order. *)
Fixpoint setOf (seen : list string) (l : list string) : list string :=
  match l with
  | [] => seen
  | x :: l' => setOf (if decide (x ∈ seen) then seen else seen ++ [x]) l'
  end.

(** Truthiness of a string-or-undefined value. *)
Definition truthy (o : option string) : bool :=
  match o with
  | Some s => negb (bool_decide (s = ""))
  | None => false
  end.

(** [x || d] on a string-or-undefined value. *)
Definition orElse (o : option string) (d : string) : string :=
  match o with
  | Some s => if decide (s = "") then d else s
  | None => d
  end.

(** [`${x}`] of a string-or-undefined value. *)
Definition show (o : option string) : string := default "undefined" o.

(** The property key that a value denotes when it is used as one,
    [String(v)]: the source text of a built-in function as the engine
    prints it, and [[object Object]] for [Object.prototype]. *)
Definition propertyKey (v : option JsValue) : string :=
  match v with
  | None => "undefined"
  | Some (Str s) => s
  | Some (Inherited p) =>
      if decide (p = "__proto__") then "[object Object]"
      else "function " +:+ (if decide (p = "constructor") then "Object" else p)
           +:+ "() { [native code] }"
  end.

(** ** The remote schema description *)

(** One column of a catalog: [{label, dataType}]. *)
Record ColumnInfo := {
  ci_label : option string;
  ci_dataType : option string
}.

(** One entry of [reportTypeMetadata.categories]; [cat_columns] is [None]
    when the entry or its [columns] is missing. *)
Record Category := {
  cat_columns : option (list (string * ColumnInfo))
}.

(** One filter operator of a data type: [{name, label}]. *)
Record OperatorEntry := {
  op_name : string;
  op_label : option string
}.

(** The response of the report-type describe call, with the three parts the
    handler reads: [reportExtendedMetadata.detailColumnInfo],
    [reportTypeMetadata.categories] and
    [reportTypeMetadata.dataTypeFilterOperatorMap].  The catalogs are given
    as their [Object.entries]. *)
Record ReportTypeDescribe := {
  detailColumnInfo : option (list (string * ColumnInfo));
  categories : option (list Category);
  dataTypeFilterOperatorMap : option (gmap string (list OperatorEntry))
}.

(** The three maps returned by [buildReportFieldMap]. *)
Record FieldMaps := {
  fieldMap : list (string * string);
  fieldTypeMap : gmap string string;
  operatorMap : gmap string (list OperatorEntry)
}.

Definition emptyMaps : FieldMaps :=
  {| fieldMap := []; fieldTypeMap := ∅; operatorMap := ∅ |}.

(** ** Thrown values and fallible computations *)

(** A thrown value: an [Error] with its [message], or any other value with
    its [String(...)] rendering. *)
Inductive Thrown :=
| ThrownError (message : string)
| ThrownValue (rendering : string).

(** [error instanceof Error ? error.message : String(error)] *)
Definition errorText (e : Thrown) : string :=
  match e with
  | ThrownError m => m
  | ThrownValue s => s
  end.

Inductive Res (A : Type) :=
| Ok (a : A)
| Err (e : Thrown).
Arguments Ok {A} a.
Arguments Err {A} e.

Definition bindRes {A B : Type} (r : Res A) (k : A -> Res B) : Res B :=
  match r with
  | Ok a => k a
  | Err e => Err e
  end.

Notation "x <- r ;; k" := (bindRes r (fun x => k))
  (at level 100, r at next level, right associativity).

(** ** Arguments of the handler *)

(** An untyped payload that the handler copies without looking inside. *)
Inductive Json :=
| JNull
| JBool (b : bool)
| JNum (n : Z)
| JStr (s : string)
| JArr (l : list Json)
| JObj (l : list (string * Json)).

(** [x && typeof x === 'object'] *)
Definition isObjectValue (j : option Json) : bool :=
  match j with
  | Some (JArr _) | Some (JObj _) => true
  | _ => false
  end.

(** A filter in the simplified shape: [{field, operator, value}]. *)
Record FilterArg := {
  f_field : option string;
  f_operator : option string;
  f_value : option string
}.

(** A filter in the shape of the Analytics API: [{column, operator, value}]. *)
Record RawFilterArg := {
  rf_column : option string;
  rf_operator : option string;
  rf_value : option string
}.

(** A grouping as supplied: [{name, sortOrder, sortAggregate, dateGranularity}].
    A member of an array of groupings is such an object or [null]; a
    member that is a number, a string or a boolean has none of the four
    properties and reads as the object without them. *)
Record GroupingArg := {
  g_name : option string;
  g_sortOrder : option string;
  g_sortAggregate : option string;
  g_dateGranularity : option string
}.

(** The [reportType] argument: [null], a string, or an object [{type, label}]. *)
Inductive ReportTypeArg :=
| RTNull
| RTString (s : string)
| RTObject (type label : option string).

(** The parts of the nested [reportMetadata] argument that the handler reads. *)
Record NestedMetadata := {
  nm_filters : option (list FilterArg);
  nm_reportFilters : option (list RawFilterArg);
  nm_aggregates : option (list string);
  nm_groupingsDown : option (list (option GroupingArg));
  nm_groupingsAcross : option (list (option GroupingArg))
}.

(** [CreateReportArgs]; [currency], [division] and [userOrHierarchyFilterId]
    distinguish [undefined] ([None]) from [null] ([Some None]). *)
Record CreateReportArgs := {
  reportName : option string;
  objectName : option string;
  columns : option (list string);
  filters : option (list FilterArg);
  reportType : option ReportTypeArg;
  folderName : option string;
  folderId : option string;
  id : option string;
  reportFormat : option string;
  reportBooleanFilter : option string;
  reportFilters : option (list RawFilterArg);
  detailColumns : option (list string);
  developerName : option string;
  currency : option (option string);
  aggregates : option (list string);
  groupingsDown : option (list (option GroupingArg));
  groupingsAcross : option (list (option GroupingArg));
  reportMetadata : option NestedMetadata;
  scope : option string;
  showGrandTotal : option bool;
  showSubtotals : option bool;
  hasDetailRows : option bool;
  hasRecordCount : option bool;
  presentationOptions : option Json;
  chart : option Json;
  crossFilters : option (list Json);
  standardDateFilter : option Json;
  standardFilters : option Json;
  division : option (option string);
  dashboardSetting : option Json;
  userOrHierarchyFilterId : option (option string);
  supportsRoleHierarchy : option bool;
  historicalSnapshotDates : option (list string)
}.

(** ** The assembled document *)

(** An entry of the document's [reportFilters]. *)
Record FilterSpec := {
  column : option JsValue;
  operator : string;
  value : option string
}.

(** An entry of the document's [groupingsDown]; a [null] [sortAggregate] is
    [None]. *)
Record GroupingSpec := {
  gs_name : option JsValue;
  gs_sortOrder : string;
  gs_sortAggregate : option JsValue;
  gs_dateGranularity : string
}.

Record ReportTypeSpec := {
  rt_type : string;
  rt_label : string
}.

(** [reportMetadataBody] at the time it is serialised.  A property that
    was never assigned is [None]; [d_folderId] is [None] when it holds
    [null].  A value [Inherited _] is an object of the engine that
    [JSON.stringify] does not write as a string. *)
Record Document := {
  d_name : option string;
  d_folderId : option string;
  d_reportType : option ReportTypeSpec;
  d_detailColumns : option (list JsValue);
  d_reportFilters : option (list FilterSpec);
  d_reportFormat : option string;
  d_id : option string;
  d_reportBooleanFilter : option string;
  d_developerName : string;
  d_currency : option (option string);
  d_aggregates : option (list string);
  d_groupingsDown : option (list GroupingSpec);
  d_groupingsAcross : option (list (option GroupingArg));
  d_scope : string;
  d_showGrandTotal : option bool;
  d_showSubtotals : option bool;
  d_hasDetailRows : option bool;
  d_hasRecordCount : option bool;
  d_presentationOptions : option Json;
  d_chart : option Json;
  d_crossFilters : option (list Json);
  d_standardDateFilter : option Json;
  d_standardFilters : option Json;
  d_division : option (option string);
  d_dashboardSetting : option Json;
  d_userOrHierarchyFilterId : option (option string);
  d_supportsRoleHierarchy : option bool;
  d_historicalSnapshotDates : option (list string)
}.

(** ** The remote collaborators *)

Record FolderRecord := {
  Id : string;
  Name : string
}.

(** The result of [conn.query]. *)
Record QueryResult := {
  records : list FolderRecord
}.

(** The response of the report-creation call: whether it carries
    [reportExtendedMetadata], and its [id]. *)
Record CreateResult := {
  reportExtendedMetadata : bool;
  result_id : option string
}.

(** The connection [conn] and the environment of the process:
    [query soql] is [conn.query(soql)], [request_get url] is
    [conn.request({method: 'GET', url})], [request_post url doc] is the
    [POST] of the serialised [{reportMetadata: doc}], [version] is
    [conn.version] and [instanceUrl] is
    [process.env.SALESFORCE_INSTANCE_URL]. *)
Record Connection := {
  query : string -> Res QueryResult;
  request_get : string -> Res ReportTypeDescribe;
  request_post : string -> Document -> Res (option CreateResult);
  version : option string;
  instanceUrl : option string
}.

(** The envelope returned to the protocol layer:
    [{content: [{type: "text", text}], isError}]. *)
Record Envelope := {
  text : string;
  isError : bool
}.

(** The three SOQL texts of the folder lookup. *)
Definition folderByIdQuery (folderId : string) : string :=
  "SELECT Id, Name FROM Folder WHERE Id = '" +:+ folderId
  +:+ "' AND Type = 'Report' LIMIT 1".

Definition folderByNameQuery (folderName : string) : string :=
  "SELECT Id, Name FROM Folder WHERE Name = '" +:+ folderName
  +:+ "' AND Type = 'Report' LIMIT 1".

Definition anyReportFolderQuery : string :=
  "SELECT Id, Name FROM Folder WHERE Type = 'Report' LIMIT 1".

(** The [kind] argument of [throwIfInvalidFields]. *)
Inductive FieldKind := KColumn | KFilter.

Definition kindText (k : FieldKind) : string :=
  match k with
  | KColumn => "column"
  | KFilter => "filter"
  end.

(** [Array.isArray(l) && l.length > 0], also [l && l.length > 0]. *)
Definition nonEmpty {A : Type} (l : option (list A)) : option (list A) :=
  match l with
  | Some (x :: l') => Some (x :: l')
  | _ => None
  end.

(** [l.map(f)] for a callback that can throw: the first throw ends the
    traversal. *)
Fixpoint mapRes {A B : Type} (f : A -> Res B) (l : list A) : Res (list B) :=
  match l with
  | [] => Ok []
  | x :: l' =>
      y <- f x;;
      ys <- mapRes f l';;
      Ok (y :: ys)
  end.

(** What [operatorMap[type]] holds: the own list of operators, a member
    of [Object.prototype], or nothing. *)
Inductive OperatorsRead :=
| OwnOperators (ops : list OperatorEntry)
| InheritedMember
| NoOperators.

(** ** The engine *)

Section Engine.

(** [String.prototype.toUpperCase] and [String.prototype.toLowerCase]. *)
Variable toUpperCase : string -> string.
Variable toLowerCase : string -> string.

(** *** [buildReportFieldMap]: the index of one schema description *)

(** One iteration of the loop over [detailColumnInfo]. *)
Definition addDetailColumn (m : list (string * string) * gmap string string)
    (e : string * ColumnInfo) : list (string * string) * gmap string string :=
  let '(colKey, info) := e in
  let dataType := orElse (ci_dataType info) "" in
  let fm := JsObj.set (toUpperCase colKey) colKey m.1 in
  let tm := JsObj.assign (toUpperCase colKey) dataType m.2 in
  if truthy (ci_label info) then
    (JsObj.set (toUpperCase (show (ci_label info))) colKey fm,
     JsObj.assign (toUpperCase (show (ci_label info))) dataType tm)
  else (fm, tm).

(** One iteration of the loop over the columns of a category. *)
Definition addCategoryColumn (m : list (string * string) * gmap string string)
    (e : string * ColumnInfo) : list (string * string) * gmap string string :=
  let '(catKey, catInfo) := e in
  let catKeyUp := toUpperCase catKey in
  if valueTruthy (JsObj.read catKeyUp m.1) then m
  else
    let dataType := orElse (ci_dataType catInfo) "" in
    let fm := JsObj.set catKeyUp catKey m.1 in
    let tm := JsObj.assign catKeyUp dataType m.2 in
    if truthy (ci_label catInfo) then
      (JsObj.set (toUpperCase (show (ci_label catInfo))) catKey fm,
       JsObj.assign (toUpperCase (show (ci_label catInfo))) dataType tm)
    else (fm, tm).

(** One iteration of the loop over [categories]. *)
Definition addCategory (m : list (string * string) * gmap string string)
    (cat : Category) : list (string * string) * gmap string string :=
  match cat_columns cat with
  | Some cols => foldl addCategoryColumn m cols
  | None => m
  end.

(** The body of the [try] of [buildReportFieldMap] after the fetch. *)
Definition indexOf (desc : ReportTypeDescribe) : FieldMaps :=
  let m0 := foldl addDetailColumn ([], ∅) (default [] (detailColumnInfo desc)) in
  let m1 := foldl addCategory m0 (default [] (categories desc)) in
  {| fieldMap := m1.1;
     fieldTypeMap := m1.2;
     operatorMap := default ∅ (dataTypeFilterOperatorMap desc) |}.

(** [buildReportFieldMap(reportTypeObj, conn)], given [reportTypeObj?.type]. *)
Definition buildReportFieldMap (typeName : option string) (conn : Connection)
    : Res FieldMaps :=
  if truthy typeName then
    let url := show (instanceUrl conn)
               +:+ "/services/data/v39.0/analytics/report-types/" +:+ show typeName in
    match request_get conn url with
    | Ok desc => Ok (indexOf desc)
    | Err error =>
        Err (ThrownError ("Failed to fetch report type metadata for '"
                          +:+ show typeName +:+ "': " +:+ errorText error))
    end
  else Ok emptyMaps.

(** *** The helpers that close over the three maps *)

Section Helpers.

Variable maps : FieldMaps.

(** [reportFieldMap[k]] when it is truthy. *)
Definition lookupField (k : string) : option JsValue :=
  let v := JsObj.read k (fieldMap maps) in
  if valueTruthy v then v else None.

(** [mapToCanonicalReportField(val)] on a string. *)
Definition mapToCanonicalReportField (val : string) : JsValue :=
  if decide (val = "") then Str val
  else
    match lookupField val with
    | Some canonical => canonical
    | None =>
        let upper := toUpperCase val in
        match lookupField upper with
        | Some canonical => canonical
        | None =>
            match List.find
                    (fun e => bool_decide (toUpperCase (JsString.trim e.1) = upper))
                    (fieldMap maps) with
            | Some e => Str e.2
            | None => Str upper
            end
        end
    end.

(** [mapToCanonicalReportField(val)] when [val] may be [undefined], which
    the first line of the function returns as it is. *)
Definition mapToCanonicalReportField_opt (val : option string) : option JsValue :=
  mapToCanonicalReportField <$> val.

(** [Array.from(allowed)] of [throwIfInvalidFields]. *)
Definition allowedFields : list string :=
  setOf [] (JsObj.values (fieldMap maps)).

(** The message of the error thrown by [throwIfInvalidFields]. *)
Definition invalidFieldMessage (requested : string) (kind : FieldKind) : string :=
  "Field '" +:+ requested +:+ "' is not a valid " +:+ kindText kind
  +:+ " for this Salesforce report type. Allowed:"
  +:+ JsString.join ", " allowedFields +:+ "]".

(** [throwIfInvalidFields(fieldsArr, kind, reportFieldMap)]; the set
    [allowed] holds strings only. *)
Fixpoint throwIfInvalidFields (fieldsArr : list (option string)) (kind : FieldKind)
    : Res unit :=
  match fieldsArr with
  | [] => Ok tt
  | requested :: rest =>
      if truthy requested then
        let mapped := mapToCanonicalReportField (show requested) in
        if decide (mapped ∈ Str <$> allowedFields) then throwIfInvalidFields rest kind
        else Err (ThrownError (invalidFieldMessage (show requested) kind))
      else throwIfInvalidFields rest kind
  end.

(** [(key && reportFieldTypeMap[key]) ? reportFieldTypeMap[key] : undefined] *)
Definition typeOfKey (key : string) : option JsValue :=
  if decide (key = "") then None
  else
    let type := JsObj.readMap key (fieldTypeMap maps) in
    if valueTruthy type then type else None.

(** [operatorMap[type]] *)
Definition readOperators (type : option JsValue) : OperatorsRead :=
  match operatorMap maps !! propertyKey type with
  | Some ops => OwnOperators ops
  | None =>
      if JsObj.inherited (propertyKey type) then InheritedMember else NoOperators
  end.

(** The list [operatorMap[type]] that [getValidOperatorsForField(column)]
    maps over, [None] when the function returns early.  A column that is
    not a string has no [toUpperCase], and a member of [Object.prototype]
    has no [map]. *)
Definition operatorsOfField (column : option JsValue)
    : Res (option (list OperatorEntry)) :=
  match column with
  | Some (Str c) =>
      if decide (c = "") then Ok None
      else
        match typeOfKey (toUpperCase c) with
        | Some type =>
            match readOperators (Some type) with
            | OwnOperators ops => Ok (Some ops)
            | InheritedMember =>
                Err (ThrownError "operatorMap[type].map is not a function")
            | NoOperators => Ok None
            end
        | None => Ok None
        end
  | Some (Inherited _) => Err (ThrownError "column.toUpperCase is not a function")
  | None => Ok None
  end.

(** [getValidOperatorsForField(column)] *)
Definition getValidOperatorsForField (column : option JsValue) : Res (list string) :=
  ops <- operatorsOfField column;;
  Ok (match ops with
      | Some ops => op_name <$> ops
      | None => []
      end).

(** [input.toLowerCase().replace(/\s|_/g, '')] *)
Definition normalizeText (s : string) : string :=
  JsString.stripSpaceUnderscore (toLowerCase s).

(** [(operatorMap[reportFieldTypeMap[column.toUpperCase()]] || [])], the
    list that the loop over the labels iterates. *)
Definition operatorsForLabels (column : option JsValue) : Res (list OperatorEntry) :=
  match column with
  | Some (Str c) =>
      match readOperators (JsObj.readMap (toUpperCase c) (fieldTypeMap maps)) with
      | OwnOperators ops => Ok ops
      | InheritedMember => Err (ThrownError "ops is not iterable")
      | NoOperators => Ok []
      end
  | Some (Inherited _) => Err (ThrownError "column.toUpperCase is not a function")
  | None =>
      Err (ThrownError "Cannot read properties of undefined (reading 'toUpperCase')")
  end.

(** [normalizeOperatorForField(op, column)] *)
Definition normalizeOperatorForField (op : option string) (column : option JsValue)
    : Res string :=
  if truthy op then
    valids <- getValidOperatorsForField column;;
    match valids with
    | [] => Ok (show op)
    | first :: _ =>
        let input := normalizeText (show op) in
        match List.find (fun v => bool_decide (input = toLowerCase v)) valids with
        | Some v => Ok v
        | None =>
            ops <- operatorsForLabels column;;
            match List.find
                    (fun o => bool_decide (input = normalizeText (orElse (op_label o) "")))
                    ops with
            | Some o => Ok (op_name o)
            | None =>
                Ok (if decide (show op ∈ valids) then show op
                    else orElse (Some first) (show op))
            end
        end
    end
  else Ok "".

(** The entry built from a filter in the simplified shape. *)
Definition canonicalFilter (f : FilterArg) : Res FilterSpec :=
  operator <- normalizeOperatorForField (f_operator f)
                (mapToCanonicalReportField_opt (f_field f));;
  Ok {| column := mapToCanonicalReportField_opt (f_field f);
        operator := operator;
        value := f_value f |}.

(** The entry built from a filter in the raw shape. *)
Definition canonicalRawFilter (f : RawFilterArg) : Res FilterSpec :=
  operator <- normalizeOperatorForField (rf_operator f)
                (mapToCanonicalReportField_opt (rf_column f));;
  Ok {| column := mapToCanonicalReportField_opt (rf_column f);
        operator := operator;
        value := rf_value f |}.

(** [f.sortAggregate ? mapToCanonicalReportField(f.sortAggregate) : null] *)
Definition canonicalSortAggregate (a : option string) : option JsValue :=
  if truthy a then Some (mapToCanonicalReportField (show a)) else None.

(** The entry built from a member of the [groupingsDown] argument; the
    read of [f.name] throws on [null]. *)
Definition canonicalGrouping (f : option GroupingArg) : Res GroupingSpec :=
  match f with
  | Some f =>
      Ok {| gs_name :=
              if valueTruthy (mapToCanonicalReportField_opt (g_name f))
              then mapToCanonicalReportField_opt (g_name f) else Str <$> g_name f;
            gs_sortOrder := orElse (g_sortOrder f) "Asc";
            gs_sortAggregate := canonicalSortAggregate (g_sortAggregate f);
            gs_dateGranularity := orElse (g_dateGranularity f) "None" |}
  | None => Err (ThrownError "Cannot read properties of null (reading 'name')")
  end.

(** The entry built from a member of [reportMetadata.groupingsDown]. *)
Definition canonicalNestedGrouping (f : option GroupingArg) : Res GroupingSpec :=
  match f with
  | Some f =>
      Ok {| gs_name := mapToCanonicalReportField_opt (g_name f);
            gs_sortOrder := orElse (g_sortOrder f) "Asc";
            gs_sortAggregate := canonicalSortAggregate (g_sortAggregate f);
            gs_dateGranularity := orElse (g_dateGranularity f) "None" |}
  | None => Err (ThrownError "Cannot read properties of null (reading 'name')")
  end.

End Helpers.

(** *** [handleCreateReport]

    Each property of [reportMetadataBody] is a variable of the embedding;
    an assignment to the property rebinds it, and the record is built from
    the final values.  The steps that can throw are sequenced in the order
    of the source. *)

(** Step 1: the folder lookups, giving [folderLabelForReport]. *)
Definition resolveFolder (conn : Connection) (args : CreateReportArgs)
    : Res (option string) :=
  folderRes <-
    (if truthy (folderId args) then query conn (folderByIdQuery (show (folderId args)))
     else query conn (folderByNameQuery (show (folderName args))));;
  match records folderRes with
  | r :: _ => Ok (Some (Id r))
  | [] =>
      anyFolder <- query conn anyReportFolderQuery;;
      match records anyFolder with
      | r :: _ => Ok (Some (Id r))
      | [] => Ok None
      end
  end.

(** [reportMetadataBody.reportType] *)
Definition reportTypeOf (args : CreateReportArgs) : option ReportTypeSpec :=
  let fill (type label : option string) :=
    {| rt_type :=
         orElse type (match objectName args with
                      | Some o => o +:+ "List"
                      | None => "ObjectList"
                      end);
       rt_label :=
         orElse label (match objectName args with
                       | Some o => o +:+ "s"
                       | None => "Objects"
                       end) |} in
  match reportType args with
  | Some RTNull => Some (fill None None)
  | Some (RTObject type label) => Some (fill type label)
  | _ =>
      match objectName args with
      | Some o => Some {| rt_type := o +:+ "List"; rt_label := o +:+ "s" |}
      | None => None
      end
  end.

(** [reportTypeObjForMapping], as the [type] it carries when it is truthy. *)
Definition reportTypeObjForMapping (args : CreateReportArgs) : option (option string) :=
  match reportType args with
  | Some RTNull => None
  | Some (RTObject type _) => Some type
  | _ =>
      match objectName args with
      | Some o => Some (Some (o +:+ "List"))
      | None => None
      end
  end.

Definition fetchMaps (conn : Connection) (args : CreateReportArgs) : Res FieldMaps :=
  match reportTypeObjForMapping args with
  | Some typeName => buildReportFieldMap typeName conn
  | None => Ok emptyMaps
  end.

(** [reportMetadataBody.detailColumns] *)
Definition stepColumns (maps : FieldMaps) (args : CreateReportArgs)
    : Res (option (list JsValue)) :=
  match nonEmpty (columns args) with
  | Some cols =>
      _ <- throwIfInvalidFields maps (Some <$> cols) KColumn;;
      Ok (Some (mapToCanonicalReportField maps <$> cols))
  | None =>
      match nonEmpty (detailColumns args) with
      | Some cols =>
          _ <- throwIfInvalidFields maps (Some <$> cols) KColumn;;
          Ok (Some (mapToCanonicalReportField maps <$> cols))
      | None => Ok None
      end
  end.

(** [reportMetadataBody.reportFilters] after the first [if]/[else if],
    over [filters] and [reportFilters]. *)
Definition stepFilters (maps : FieldMaps) (args : CreateReportArgs)
    : Res (option (list FilterSpec)) :=
  match nonEmpty (filters args) with
  | Some fs =>
      _ <- throwIfInvalidFields maps (f_field <$> fs) KFilter;;
      entries <- mapRes (canonicalFilter maps) fs;;
      Ok (Some entries)
  | None =>
      match nonEmpty (reportFilters args) with
      | Some fs =>
          _ <- throwIfInvalidFields maps (rf_column <$> fs) KFilter;;
          entries <- mapRes (canonicalRawFilter maps) fs;;
          Ok (Some entries)
      | None => Ok None
      end
  end.

(** [reportMetadataBody.reportFilters] after the block [if (reportMetadata)]
    that follows; [current] is the value left by [stepFilters]. *)
Definition stepNestedFilters (maps : FieldMaps) (args : CreateReportArgs)
    (current : option (list FilterSpec)) : Res (option (list FilterSpec)) :=
  match reportMetadata args with
  | Some md =>
      match nonEmpty (nm_filters md) with
      | Some fs =>
          _ <- throwIfInvalidFields maps (f_field <$> fs) KFilter;;
          entries <- mapRes (canonicalFilter maps) fs;;
          Ok (Some entries)
      | None =>
          match nonEmpty (nm_reportFilters md) with
          | Some fs =>
              _ <- throwIfInvalidFields maps (rf_column <$> fs) KFilter;;
              entries <- mapRes (canonicalRawFilter maps) fs;;
              Ok (Some entries)
          | None => Ok current
          end
      end
  | None => Ok current
  end.

(** [reportMetadataBody.developerName] *)
Definition stepDeveloperName (args : CreateReportArgs) : Res string :=
  match developerName args with
  | Some d => Ok d
  | None =>
      match reportName args with
      | Some n => Ok (JsString.replaceNonWord n)
      | None =>
          Err (ThrownError "Cannot read properties of undefined (reading 'replace')")
      end
  end.

(** The value of a property assigned from the arguments and then, in the
    second block [if (reportMetadata)], from the nested object. *)
Definition overriddenBy {A : Type} (nested direct : option A) : option A :=
  match nested with
  | Some a => Some a
  | None => direct
  end.

(** A property read inside [if (reportMetadata)]. *)
Definition fromNested {A : Type} (args : CreateReportArgs)
    (read : NestedMetadata -> option A) : option A :=
  match reportMetadata args with
  | Some md => read md
  | None => None
  end.

(** [l.map(f)] under the guard [Array.isArray(l) && l.length > 0]. *)
Definition mapNonEmpty {A B : Type} (f : A -> B) (l : option (list A))
    : option (list B) :=
  match nonEmpty l with
  | Some xs => Some (f <$> xs)
  | None => None
  end.

(** The same for a callback that can throw. *)
Definition mapNonEmptyRes {A B : Type} (f : A -> Res B) (l : option (list A))
    : Res (option (list B)) :=
  match nonEmpty l with
  | Some xs =>
      entries <- mapRes f xs;;
      Ok (Some entries)
  | None => Ok None
  end.

(** [reportMetadataBody.groupingsDown] after the [if] over the
    [groupingsDown] argument. *)
Definition stepGroupingsDown (maps : FieldMaps) (args : CreateReportArgs)
    : Res (option (list GroupingSpec)) :=
  match nonEmpty (groupingsDown args) with
  | Some gs =>
      entries <- mapRes (canonicalGrouping maps) gs;;
      Ok (Some entries)
  | None => Ok None
  end.

(** [reportMetadataBody.groupingsDown] after the second block
    [if (reportMetadata)]; [current] is the value left by
    [stepGroupingsDown]. *)
Definition stepNestedGroupingsDown (maps : FieldMaps) (args : CreateReportArgs)
    (current : option (list GroupingSpec)) : Res (option (list GroupingSpec)) :=
  match fromNested args (λ md, nonEmpty (nm_groupingsDown md)) with
  | Some gs =>
      entries <- mapRes (canonicalNestedGrouping maps) gs;;
      Ok (Some entries)
  | None => Ok current
  end.

Definition passObject (j : option Json) : option Json :=
  if isObjectValue j then j else None.

(** Step 2: the construction of [reportMetadataBody]. *)
Definition assembleDocument (conn : Connection) (args : CreateReportArgs)
    (folderLabelForReport : option string) : Res Document :=
  maps <- fetchMaps conn args;;
  cols <- stepColumns maps args;;
  filters1 <- stepFilters maps args;;
  filters2 <- stepNestedFilters maps args filters1;;
  devName <- stepDeveloperName args;;
  down1 <- stepGroupingsDown maps args;;
  down2 <- stepNestedGroupingsDown maps args down1;;
  Ok {| d_name := reportName args;
        d_folderId :=
          if truthy (folderId args) then folderId args else folderLabelForReport;
        d_reportType := reportTypeOf args;
        d_detailColumns := cols;
        d_reportFilters := filters2;
        d_reportFormat := toUpperCase <$> reportFormat args;
        d_id := if truthy (id args) then id args else None;
        d_reportBooleanFilter := reportBooleanFilter args;
        d_developerName := devName;
        d_currency := currency args;
        d_aggregates :=
          overriddenBy (fromNested args (λ md, nonEmpty (nm_aggregates md)))
                       (nonEmpty (aggregates args));
        d_groupingsDown := down2;
        d_groupingsAcross :=
          overriddenBy (fromNested args (λ md, nonEmpty (nm_groupingsAcross md)))
                       (nonEmpty (groupingsAcross args));
        d_scope := orElse (scope args) "organization";
        d_showGrandTotal := showGrandTotal args;
        d_showSubtotals := showSubtotals args;
        d_hasDetailRows := hasDetailRows args;
        d_hasRecordCount := hasRecordCount args;
        d_presentationOptions := passObject (presentationOptions args);
        d_chart := passObject (chart args);
        d_crossFilters := nonEmpty (crossFilters args);
        d_standardDateFilter := passObject (standardDateFilter args);
        d_standardFilters := passObject (standardFilters args);
        d_division := division args;
        d_dashboardSetting := passObject (dashboardSetting args);
        d_userOrHierarchyFilterId := userOrHierarchyFilterId args;
        d_supportsRoleHierarchy := supportsRoleHierarchy args;
        d_historicalSnapshotDates := nonEmpty (historicalSnapshotDates args) |}.

(** The document that the handler submits: steps 1 and 2. *)
Definition reportMetadataBody (conn : Connection) (args : CreateReportArgs)
    : Res Document :=
  folderLabelForReport <- resolveFolder conn args;;
  assembleDocument conn args folderLabelForReport.

Definition errorEnvelope (prefix : string) (error : Thrown) : Envelope :=
  {| text := prefix +:+ errorText error; isError := true |}.

(** The body of the [try] block of [handleCreateReport]. *)
Definition createReport (conn : Connection) (args : CreateReportArgs) : Res Envelope :=
  folderLabelForReport <- resolveFolder conn args;;
  doc <- assembleDocument conn args folderLabelForReport;;
  let url := show (instanceUrl conn) +:+ "/services/data/v"
             +:+ orElse (version conn) "57.0" +:+ "/analytics/reports" in
  result <- request_post conn url doc;;
  match result with
  | Some r =>
      if reportExtendedMetadata r then
        Ok {| text := "Successfully created report '" +:+ show (reportName args)
                      +:+ "' in folder '" +:+ default "null" folderLabelForReport
                      +:+ "' (Id: " +:+ show (result_id r) +:+ ")";
              isError := false |}
      else
        Ok {| text := "Failed to create report '" +:+ show (reportName args) +:+ "'";
              isError := true |}
  | None =>
      Ok {| text := "Failed to create report '" +:+ show (reportName args) +:+ "'";
            isError := true |}
  end.

(** [handleCreateReport(conn, args)].  The destructuring of [args] stands
    ahead of the [try] block: with [args] absent ([None]) it throws a
    [TypeError] that no handler of this function catches. *)
Definition handleCreateReport (conn : Connection) (args : option CreateReportArgs)
    : Res Envelope :=
  match args with
  | None =>
      Err (ThrownError
             "Cannot destructure property 'reportName' of 'args' as it is undefined.")
  | Some a =>
      match createReport conn a with
      | Ok envelope => Ok envelope
      | Err error => Ok (errorEnvelope "Error creating report: " error)
      end
  end.

(** The arguments of a tool call, of which the [salesforce_create_report]
    case forwards [reportMetadata] only. *)
Record ToolArguments := {
  ta_reportMetadata : option CreateReportArgs
}.

(** The [salesforce_create_report] case of the request handler of
    [src/index.ts], inside the handler's own [try]/[catch]; [connect] is
    the outcome of [createSalesforceConnection()]. *)
Definition salesforce_create_report (connect : Res Connection)
    (arguments : option ToolArguments) : Envelope :=
  match
    (conn <- connect;;
     match arguments with
     | Some reportArgs => handleCreateReport conn (ta_reportMetadata reportArgs)
     | None =>
         Err (ThrownError "Cannot read properties of undefined (reading 'reportName')")
     end)
  with
  | Ok envelope => envelope
  | Err error => errorEnvelope "Error: " error
  end.

End Engine.

(** ** Specification vocabulary *)

(** [requested] has a case-insensitive mapping into the index: one of the
    three lookups of [mapToCanonicalReportField] (the key itself, the
    upper-cased key, the scan over the trimmed and upper-cased keys) meets
    a key of [reportFieldMap]. *)
Definition hasMapping (toUpperCase : string -> string)
    (reportFieldMap : list (string * string)) (requested : string) : Prop :=
  exists k, k ∈ JsObj.keys reportFieldMap /\
    (k = requested \/ k = toUpperCase requested
     \/ toUpperCase (JsString.trim k) = toUpperCase requested).

(** Every canonical name of an index has its upper-cased form as a key. *)
Definition keyed (toUpperCase : string -> string) (fm : list (string * string)) : Prop :=
  forall v, v ∈ JsObj.values fm -> toUpperCase v ∈ JsObj.keys fm.



(** The source of the document's [reportFilters], as a reducer in which
    the first non-empty source wins: the nested object's [filters], the
    nested object's [reportFilters], the [filters] argument, the
    [reportFilters] argument. *)
Definition filtersByPrecedence (toUpperCase toLowerCase : string -> string)
    (maps : FieldMaps) (args : CreateReportArgs) : Res (option (list FilterSpec)) :=
  match fromNested args (λ md, nonEmpty (nm_filters md)) with
  | Some fs => mapNonEmptyRes (canonicalFilter toUpperCase toLowerCase maps) (Some fs)
  | None =>
      match fromNested args (λ md, nonEmpty (nm_reportFilters md)) with
      | Some fs =>
          mapNonEmptyRes (canonicalRawFilter toUpperCase toLowerCase maps) (Some fs)
      | None =>
          match nonEmpty (filters args) with
          | Some fs =>
              mapNonEmptyRes (canonicalFilter toUpperCase toLowerCase maps) (Some fs)
          | None =>
              mapNonEmptyRes (canonicalRawFilter toUpperCase toLowerCase maps)
                (reportFilters args)
          end
      end
  end.




(** The loop of [throwIfInvalidFields] goes past the entry [e] of a
    batch: the entry is empty or absent, or what it is mapped to is a
    canonical name of the index. *)
Definition accepted (toUpperCase : string -> string) (maps : FieldMaps)
    (e : option string) : Prop :=
  truthy e = false
  \/ mapToCanonicalReportField toUpperCase maps (show e)
       ∈ Str <$> JsObj.values (fieldMap maps).

(** ** A sample organisation *)

Module Sample.

Definition upper := JsString.ascii_toUpperCase.
Definition lower := JsString.ascii_toLowerCase.

Definition equalsOp : OperatorEntry :=
  {| op_name := "equals"; op_label := Some "Equals" |}.
Definition notEqualOp : OperatorEntry :=
  {| op_name := "notEqual"; op_label := Some "Does Not Equal" |}.

(** The schema of report type [AccountList]. *)
Definition describe : ReportTypeDescribe :=
  {| detailColumnInfo :=
       Some [("AccountName",
               {| ci_label := Some "Account Name"; ci_dataType := Some "string" |});
             ("Amount",
               {| ci_label := Some "Amount"; ci_dataType := Some "currency" |})];
     categories := Some [];
     dataTypeFilterOperatorMap :=
       Some {[ "string" := [equalsOp; notEqualOp] ]} |}.

(** A schema whose category column [ACC2] carries the label [Name], the
    key under which the detail column [Name] is registered. *)
Definition shadowing : ReportTypeDescribe :=
  {| detailColumnInfo :=
       Some [("Name",
               {| ci_label := Some "Account Name"; ci_dataType := Some "string" |})];
     categories :=
       Some [{| cat_columns :=
                  Some [("ACC2",
                          {| ci_label := Some "Name"; ci_dataType := Some "int" |})] |}];
     dataTypeFilterOperatorMap := None |}.

(** [shadowing] without its category. *)
Definition detailOnly : ReportTypeDescribe :=
  {| detailColumnInfo := detailColumnInfo shadowing;
     categories := None;
     dataTypeFilterOperatorMap := None |}.

(** An organisation with the report folders [folders] and the report type
    [AccountList]. *)
Definition conn (folders : list FolderRecord) : Connection :=
  {| query := λ soql,
       if decide (soql = anyReportFolderQuery) then Ok {| records := take 1 folders |}
       else
         Ok {| records :=
                 take 1 (List.filter
                           (λ r, bool_decide (soql = folderByIdQuery (Id r))
                                 || bool_decide (soql = folderByNameQuery (Name r)))
                           folders) |};
     request_get := λ url,
       if decide (url = "https://acme.example/services/data/v39.0/analytics/report-types/"
                        +:+ "AccountList")
       then Ok describe
       else Err (ThrownError "NOT_FOUND");
     request_post := λ _ _,
       Ok (Some {| reportExtendedMetadata := true; result_id := Some "00O000000000001" |});
     version := Some "57.0";
     instanceUrl := Some "https://acme.example" |}.

Definition publicFolder : FolderRecord := {| Id := "00l000000000001"; Name := "Public" |}.

(** A call for report [My Report!] on object [Account]; every argument
    that is not listed is absent. *)
Definition args (cols : option (list string)) (fs : option (list FilterArg))
    (folder : option string) (down : option (list (option GroupingArg)))
    (nested : option NestedMetadata) : CreateReportArgs :=
  {| reportName := Some "My Report!";
     objectName := Some "Account";
     columns := cols;
     filters := fs;
     reportType := None;
     folderName := None;
     folderId := folder;
     id := None;
     reportFormat := None;
     reportBooleanFilter := None;
     reportFilters := None;
     detailColumns := None;
     developerName := None;
     currency := None;
     aggregates := None;
     groupingsDown := down;
     groupingsAcross := None;
     reportMetadata := nested;
     scope := None;
     showGrandTotal := None;
     showSubtotals := None;
     hasDetailRows := None;
     hasRecordCount := None;
     presentationOptions := None;
     chart := None;
     crossFilters := None;
     standardDateFilter := None;
     standardFilters := None;
     division := None;
     dashboardSetting := None;
     userOrHierarchyFilterId := None;
     supportsRoleHierarchy := None;
     historicalSnapshotDates := None |}.

Definition acmeFilter : FilterArg :=
  {| f_field := Some "Account Name"; f_operator := Some "equals"; f_value := Some "Acme" |}.
Definition otherFilter : FilterArg :=
  {| f_field := Some "Account Name"; f_operator := Some "notEqual"; f_value := Some "Other" |}.

Definition nestedFilters (fs : list FilterArg) : NestedMetadata :=
  {| nm_filters := Some fs;
     nm_reportFilters := None;
     nm_aggregates := None;
     nm_groupingsDown := None;
     nm_groupingsAcross := None |}.

(** The message of the validation error for the column [BOGUS_FIELD]. *)
Definition bogusColumnMessage : string :=
  "Field 'BOGUS_FIELD' is not a valid column for this Salesforce report type."
  +:+ " Allowed:AccountName, Amount]".






(** A schema in which the label of the column [FY] is an array index. *)
Definition numbered : ReportTypeDescribe :=
  {| detailColumnInfo :=
       Some [("Name", {| ci_label := Some "Account Name"; ci_dataType := Some "string" |});
             ("FY", {| ci_label := Some "2024"; ci_dataType := Some "int" |})];
     categories := None;
     dataTypeFilterOperatorMap := None |}.

End Sample.

(** ** Metadata upserts: [createPermissionSet.ts], [createProfile.ts] and
    [handleCreateFlow] of [createFlow.ts]

    The three handlers build a metadata object from their arguments, pass
    it to [conn.metadata.upsert] and read the first result. *)

(** One entry of the [errors] of a save result. *)
Record SaveError := {
  se_message : option string
}.

(** [r.errors]: an array of errors or a single error. *)
Inductive SaveErrors :=
| ErrorList (l : list SaveError)
| ErrorOne (e : SaveError).

(** One result of an upsert; a missing [success] is [false]. *)
Record SaveResult := {
  success : bool;
  errors : option SaveErrors
}.

(** What [conn.metadata.upsert] resolves to: one result (possibly
    [undefined]) or an array of results. *)
Inductive UpsertReply :=
| ReplyOne (r : option SaveResult)
| ReplyMany (l : list (option SaveResult)).

(** [conn.metadata], for a metadata object of type [M]:
    [metadata_upsert conn type md] is [conn.metadata.upsert(type, md)]. *)
Record MetadataConnection (M : Type) := {
  metadata_upsert : string -> M -> Res UpsertReply
}.
Arguments metadata_upsert {M} _ _ _.

(** [(Array.isArray(result) ? result : [result])[0]] *)
Definition firstResult (result : UpsertReply) : option SaveResult :=
  match result with
  | ReplyOne r => r
  | ReplyMany [] => None
  | ReplyMany (r :: _) => r
  end.

(** [r && r.success] *)
Definition succeeded (r : option SaveResult) : bool :=
  match r with
  | Some r' => success r'
  | None => false
  end.

(** The text [err] of the three handlers: the messages of [r.errors]
    joined by ["; "] (a missing message joins as the empty string), the
    message of a single error as a template renders it, or
    ["Unknown error"]. *)
Definition errorSummary (r : option SaveResult) : string :=
  match r with
  | Some r' =>
      match errors r' with
      | Some (ErrorList l) => JsString.join "; " ((λ e, default "" (se_message e)) <$> l)
      | Some (ErrorOne e) => show (se_message e)
      | None => "Unknown error"
      end
  | None => "Unknown error"
  end.

(** [!!b] and [b !== false] on an optional boolean. *)
Definition toBoolean (b : option bool) : bool := default false b.
Definition notFalse (b : option bool) : bool := default true b.

(** The entries of the permission sections, as the arguments carry them. *)
Record ObjectPermissionArg := {
  opa_object : option string;
  opa_allowCreate : option bool;
  opa_allowRead : option bool;
  opa_allowEdit : option bool;
  opa_allowDelete : option bool;
  opa_modifyAllRecords : option bool;
  opa_viewAllRecords : option bool
}.

Record FieldPermissionArg := {
  fpa_field : option string;
  fpa_readable : option bool;
  fpa_editable : option bool
}.

Record ClassAccessArg := {
  caa_apexClass : option string;
  caa_enabled : option bool
}.

Record PageAccessArg := {
  paa_apexPage : option string;
  paa_enabled : option bool
}.

Record TabArg := {
  tba_tab : option string;
  tba_visibility : option string
}.

Record ApplicationVisibilityArg := {
  ava_application : option string;
  ava_visible : option bool
}.

Record UserPermissionArg := {
  upa_name : option string;
  upa_enabled : option bool
}.

(** The entries of the permission sections, as the metadata carries them. *)
Record ObjectPermission := {
  opm_object : option string;
  opm_allowCreate : bool;
  opm_allowRead : bool;
  opm_allowEdit : bool;
  opm_allowDelete : bool;
  opm_modifyAllRecords : bool;
  opm_viewAllRecords : bool
}.

Record FieldPermission := {
  fpm_field : option string;
  fpm_readable : bool;
  fpm_editable : bool
}.

Record ClassAccess := {
  cam_apexClass : option string;
  cam_enabled : bool
}.

Record PageAccess := {
  pam_apexPage : option string;
  pam_enabled : bool
}.

Record TabVisibility := {
  tbm_tab : option string;
  tbm_visibility : string
}.

Record ApplicationVisibility := {
  avm_application : option string;
  avm_visible : bool
}.

Record UserPermission := {
  upm_name : option string;
  upm_enabled : bool
}.

(** [l ? { key: l.map(f) } : {}] for an array property. *)
Definition mapSection {A B : Type} (f : A -> B) (l : option (list A)) : option (list B) :=
  match l with
  | Some xs => Some (f <$> xs)
  | None => None
  end.

(** [x ? { key: x } : {}] for a string property. *)
Definition whenTruthy (o : option string) : option string :=
  if truthy o then o else None.

(** *** [createPermissionSet.ts] *)

Module CreatePermissionSet.

(** [CreatePermissionSetArgs] *)
Record Args := {
  developerName : option string;
  label : option string;
  userLicense : option string;
  description : option string;
  objectPermissions : option (list ObjectPermissionArg);
  fieldPermissions : option (list FieldPermissionArg);
  classAccesses : option (list ClassAccessArg);
  pageAccesses : option (list PageAccessArg);
  tabSettings : option (list TabArg);
  applicationVisibilities : option (list ApplicationVisibilityArg);
  userPermissions : option (list UserPermissionArg)
}.

(** The object [md]; a property that the spread leaves out is [None]. *)
Record Metadata := {
  fullName : option string;
  md_label : option string;
  md_userLicense : option string;
  md_description : option string;
  md_objectPermissions : option (list ObjectPermission);
  md_fieldPermissions : option (list FieldPermission);
  md_classAccesses : option (list ClassAccess);
  md_pageAccesses : option (list PageAccess);
  md_tabSettings : option (list TabVisibility);
  md_applicationVisibilities : option (list ApplicationVisibility);
  md_userPermissions : option (list UserPermission)
}.

(** The construction of [md]. *)
Definition metadataOf (args : Args) : Metadata :=
  {| fullName := developerName args;
     md_label := whenTruthy (label args);
     md_userLicense := whenTruthy (userLicense args);
     md_description := whenTruthy (description args);
     md_objectPermissions :=
       mapSection (λ op, {| opm_object := opa_object op;
                          opm_allowCreate := toBoolean (opa_allowCreate op);
                          opm_allowRead := toBoolean (opa_allowRead op);
                          opm_allowEdit := toBoolean (opa_allowEdit op);
                          opm_allowDelete := toBoolean (opa_allowDelete op);
                          opm_modifyAllRecords := toBoolean (opa_modifyAllRecords op);
                          opm_viewAllRecords := toBoolean (opa_viewAllRecords op) |})
         (objectPermissions args);
     md_fieldPermissions :=
       mapSection (λ fp, {| fpm_field := fpa_field fp;
                          fpm_readable := notFalse (fpa_readable fp);
                          fpm_editable := toBoolean (fpa_editable fp) |})
         (fieldPermissions args);
     md_classAccesses :=
       mapSection (λ ca, {| cam_apexClass := caa_apexClass ca;
                          cam_enabled := toBoolean (caa_enabled ca) |})
         (classAccesses args);
     md_pageAccesses :=
       mapSection (λ pa, {| pam_apexPage := paa_apexPage pa;
                          pam_enabled := toBoolean (paa_enabled pa) |})
         (pageAccesses args);
     md_tabSettings :=
       mapSection (λ ts, {| tbm_tab := tba_tab ts;
                          tbm_visibility := orElse (tba_visibility ts) "DefaultOn" |})
         (tabSettings args);
     md_applicationVisibilities :=
       mapSection (λ av, {| avm_application := ava_application av;
                          avm_visible := toBoolean (ava_visible av) |})
         (applicationVisibilities args);
     md_userPermissions :=
       mapSection (λ up, {| upm_name := upa_name up;
                          upm_enabled := toBoolean (upa_enabled up) |})
         (userPermissions args) |}.

(** [handleCreatePermissionSet(conn, args)], for an argument object. *)
Definition handleCreatePermissionSet (conn : MetadataConnection Metadata) (args : Args)
    : Envelope :=
  if truthy (developerName args) then
    match metadata_upsert conn "PermissionSet" (metadataOf args) with
    | Ok result =>
        let r := firstResult result in
        if succeeded r then
          {| text := "Permission Set '" +:+ show (developerName args)
                     +:+ "' created/updated successfully.";
             isError := false |}
        else
          {| text := "Failed to create/update Permission Set '"
                     +:+ show (developerName args) +:+ "': " +:+ errorSummary r;
             isError := true |}
    | Err e =>
        {| text := "Error creating/updating Permission Set: " +:+ errorText e;
           isError := true |}
    end
  else {| text := "developerName is required"; isError := true |}.

End CreatePermissionSet.

(** *** [createProfile.ts] *)

Module CreateProfile.

(** [CreateProfileArgs] *)
Record Args := {
  profileName : option string;
  userLicense : option string;
  description : option string;
  objectPermissions : option (list ObjectPermissionArg);
  fieldPermissions : option (list FieldPermissionArg);
  classAccesses : option (list ClassAccessArg);
  pageAccesses : option (list PageAccessArg);
  applicationVisibilities : option (list ApplicationVisibilityArg);
  tabVisibilities : option (list TabArg);
  userPermissions : option (list UserPermissionArg)
}.

(** The object [md]. *)
Record Metadata := {
  fullName : option string;
  md_userLicense : option string;
  md_description : option string;
  md_objectPermissions : option (list ObjectPermission);
  md_fieldPermissions : option (list FieldPermission);
  md_classAccesses : option (list ClassAccess);
  md_pageAccesses : option (list PageAccess);
  md_applicationVisibilities : option (list ApplicationVisibility);
  md_tabVisibilities : option (list TabVisibility);
  md_userPermissions : option (list UserPermission)
}.

(** The construction of [md]. *)
Definition metadataOf (args : Args) : Metadata :=
  {| fullName := profileName args;
     md_userLicense := whenTruthy (userLicense args);
     md_description := whenTruthy (description args);
     md_objectPermissions :=
       mapSection (λ op, {| opm_object := opa_object op;
                          opm_allowCreate := toBoolean (opa_allowCreate op);
                          opm_allowRead := toBoolean (opa_allowRead op);
                          opm_allowEdit := toBoolean (opa_allowEdit op);
                          opm_allowDelete := toBoolean (opa_allowDelete op);
                          opm_modifyAllRecords := toBoolean (opa_modifyAllRecords op);
                          opm_viewAllRecords := toBoolean (opa_viewAllRecords op) |})
         (objectPermissions args);
     md_fieldPermissions :=
       mapSection (λ fp, {| fpm_field := fpa_field fp;
                          fpm_readable := notFalse (fpa_readable fp);
                          fpm_editable := toBoolean (fpa_editable fp) |})
         (fieldPermissions args);
     md_classAccesses :=
       mapSection (λ ca, {| cam_apexClass := caa_apexClass ca;
                          cam_enabled := toBoolean (caa_enabled ca) |})
         (classAccesses args);
     md_pageAccesses :=
       mapSection (λ pa, {| pam_apexPage := paa_apexPage pa;
                          pam_enabled := toBoolean (paa_enabled pa) |})
         (pageAccesses args);
     md_applicationVisibilities :=
       mapSection (λ av, {| avm_application := ava_application av;
                          avm_visible := toBoolean (ava_visible av) |})
         (applicationVisibilities args);
     md_tabVisibilities :=
       mapSection (λ tv, {| tbm_tab := tba_tab tv;
                          tbm_visibility := orElse (tba_visibility tv) "DefaultOn" |})
         (tabVisibilities args);
     md_userPermissions :=
       mapSection (λ up, {| upm_name := upa_name up;
                          upm_enabled := toBoolean (upa_enabled up) |})
         (userPermissions args) |}.

(** [handleCreateProfile(conn, args)], for an argument object. *)
Definition handleCreateProfile (conn : MetadataConnection Metadata) (args : Args)
    : Envelope :=
  if truthy (profileName args) then
    match metadata_upsert conn "Profile" (metadataOf args) with
    | Ok result =>
        let r := firstResult result in
        if succeeded r then
          {| text := "Profile '" +:+ show (profileName args)
                     +:+ "' created/updated successfully.";
             isError := false |}
        else
          {| text := "Failed to create/update Profile '"
                     +:+ show (profileName args) +:+ "': " +:+ errorSummary r;
             isError := true |}
    | Err e =>
        {| text := "Error creating/updating Profile: " +:+ errorText e;
           isError := true |}
    end
  else {| text := "profileName is required"; isError := true |}.

End CreateProfile.

(** *** [handleCreateFlow] of [createFlow.ts] *)

(** Truthiness of an untyped value. *)
Definition jsonTruthy (j : option Json) : bool :=
  match j with
  | None | Some JNull => false
  | Some (JBool b) => b
  | Some (JNum n) => negb (bool_decide (n = 0%Z))
  | Some (JStr s) => negb (bool_decide (s = ""))
  | Some (JArr _) | Some (JObj _) => true
  end.

(** The own enumerable properties of a value that is spread into an object
    literal: the entries of an object, the elements of an array under their
    indices. *)
Definition ownEntries (j : Json) : list (string * Json) :=
  match j with
  | JObj l => l
  | JArr l => imap (λ i x, (pretty i, x)) l
  | _ => []
  end.

(** [{...base, ...j}]: later properties replace earlier ones. *)
Definition spreadInto (base : gmap string Json) (j : Json) : gmap string Json :=
  foldl (λ m e, <[e.1 := e.2]> m) base (ownEntries j).

(** A record of a Tooling API query: its [Id] and, for a [Flow], its
    [VersionNumber]. *)
Record ToolingRecord := {
  tr_Id : string;
  tr_VersionNumber : Z
}.

Record ToolingQueryResult := {
  tr_records : list ToolingRecord
}.

(** [conn] as [handleCreateFlow] uses it: [flow_upsert type md] is
    [conn.metadata.upsert(type, md)], [tooling_query soql] is
    [conn.tooling.query(soql)] and [tooling_update type id activeVersionId]
    is [conn.tooling.sobject(type).update({Id, ActiveVersionId})], whose
    result the handler does not read. *)
Record FlowConnection := {
  flow_upsert : string -> gmap string Json -> Res UpsertReply;
  tooling_query : string -> Res ToolingQueryResult;
  tooling_update : string -> string -> string -> Res unit
}.

Module CreateFlow.

(** [CreateFlowArgs] *)
Record Args := {
  developerName : option string;
  status : option string;
  activate : option bool;
  flowMetadata : option Json
}.

(** The object [md] that is upserted, for a [flowMetadata] that is an
    object. *)
Definition metadataOf (args : Args) : gmap string Json :=
  let md := spreadInto {[ "fullName" := JStr (show (developerName args)) ]}
              (default JNull (flowMetadata args)) in
  if truthy (status args) then <["status" := JStr (show (status args))]> md else md.

Definition definitionQuery (developerName : string) : string :=
  "SELECT Id FROM FlowDefinition WHERE DeveloperName = '" +:+ developerName
  +:+ "' LIMIT 1".

Definition latestVersionQuery (developerName : string) : string :=
  "SELECT Id, VersionNumber, Status FROM Flow WHERE Definition.DeveloperName = '"
  +:+ developerName +:+ "' ORDER BY VersionNumber DESC LIMIT 1".

(** The inner [try] block: the activation, giving [activationNote]. *)
Definition activation (conn : FlowConnection) (developerName : string) : Res string :=
  defRes <- tooling_query conn (definitionQuery developerName);;
  match tr_records defRes with
  | definition :: _ =>
      flowRes <- tooling_query conn (latestVersionQuery developerName);;
      match tr_records flowRes with
      | latest :: _ =>
          _ <- tooling_update conn "FlowDefinition" (tr_Id definition) (tr_Id latest);;
          Ok (" Activation set to version " +:+ pretty (tr_VersionNumber latest) +:+ ".")
      | [] => Ok ""
      end
  | [] => Ok ""
  end.

(** [activationNote] after the block [if (activate || status === 'Active')]. *)
Definition activationNote (conn : FlowConnection) (args : Args) : string :=
  if toBoolean (activate args) || bool_decide (status args = Some "Active") then
    match activation conn (show (developerName args)) with
    | Ok note => note
    | Err e => " Activation attempt failed: " +:+ errorText e
    end
  else "".

(** [handleCreateFlow(conn, args)], for an argument object. *)
Definition handleCreateFlow (conn : FlowConnection) (args : Args) : Envelope :=
  if negb (truthy (developerName args)) then
    {| text := "developerName is required"; isError := true |}
  else if negb (isObjectValue (flowMetadata args)) then
    {| text := "flowMetadata object is required"; isError := true |}
  else
    match flow_upsert conn "Flow" (metadataOf args) with
    | Ok result =>
        let r := firstResult result in
        if succeeded r then
          {| text := "Flow '" +:+ show (developerName args)
                     +:+ "' created/updated successfully." +:+ activationNote conn args;
             isError := false |}
        else
          {| text := "Failed to create/update Flow '" +:+ show (developerName args)
                     +:+ "': " +:+ errorSummary r;
             isError := true |}
    | Err e =>
        {| text := "Error creating/updating Flow: " +:+ errorText e; isError := true |}
    end.

End CreateFlow.

(** *** The cases of the request handler of [src/index.ts] for the three
    tools, inside the handler's [try]/[catch]; [connect] is the outcome of
    [createSalesforceConnection()] and [arguments] is [request.params.arguments]. *)

Definition salesforce_create_permission_set
    (connect : Res (MetadataConnection CreatePermissionSet.Metadata))
    (arguments : option CreatePermissionSet.Args) : Envelope :=
  match
    (conn <- connect;;
     match arguments with
     | Some psArgs =>
         if truthy (CreatePermissionSet.developerName psArgs) then
           Ok (CreatePermissionSet.handleCreatePermissionSet conn psArgs)
         else Err (ThrownError "developerName is required")
     | None =>
         Err (ThrownError "Cannot read properties of undefined (reading 'developerName')")
     end)
  with
  | Ok envelope => envelope
  | Err error => {| text := "Error: " +:+ errorText error; isError := true |}
  end.

Definition salesforce_create_profile
    (connect : Res (MetadataConnection CreateProfile.Metadata))
    (arguments : option CreateProfile.Args) : Envelope :=
  match
    (conn <- connect;;
     match arguments with
     | Some pArgs =>
         if truthy (CreateProfile.profileName pArgs) then
           Ok (CreateProfile.handleCreateProfile conn pArgs)
         else Err (ThrownError "profileName is required")
     | None =>
         Err (ThrownError "Cannot read properties of undefined (reading 'profileName')")
     end)
  with
  | Ok envelope => envelope
  | Err error => {| text := "Error: " +:+ errorText error; isError := true |}
  end.

Definition salesforce_create_flow (connect : Res FlowConnection)
    (arguments : option CreateFlow.Args) : Envelope :=
  match
    (conn <- connect;;
     match arguments with
     | Some flowArgs =>
         if truthy (CreateFlow.developerName flowArgs)
            && jsonTruthy (CreateFlow.flowMetadata flowArgs)
         then Ok (CreateFlow.handleCreateFlow conn flowArgs)
         else Err (ThrownError "developerName and flowMetadata are required")
     | None =>
         Err (ThrownError "Cannot read properties of undefined (reading 'developerName')")
     end)
  with
  | Ok envelope => envelope
  | Err error => {| text := "Error: " +:+ errorText error; isError := true |}
  end.

(** ** Vocabulary of the further properties *)

(** A column of the document is absent, empty, or a canonical name of the
    index. *)
Definition canonicalColumn (maps : FieldMaps) (c : option JsValue) : Prop :=
  match c with
  | Some v => v = Str "" \/ v ∈ Str <$> JsObj.values (fieldMap maps)
  | None => True
  end.

(** Every key of an index is its own upper-cased form. *)
Definition upperKeyed (toUpperCase : string -> string) (fm : list (string * string))
    : Prop :=
  forall k, k ∈ JsObj.keys fm -> toUpperCase k = k.

(** The address of the report-creation request. *)
Definition reportsUrl (conn : Connection) : string :=
  show (instanceUrl conn) +:+ "/services/data/v" +:+ orElse (version conn) "57.0"
  +:+ "/analytics/reports".

(** The own properties of a spread value, as a map. *)
Definition ownProperties (j : Json) : gmap string Json := spreadInto ∅ j.

(** ** Sample metadata calls *)

Module SampleMetadata.

Definition rejected : SaveResult :=
  {| success := false;
     errors := Some (ErrorList [{| se_message := Some "Invalid field: Case.Foo" |};
                                {| se_message := Some "Insufficient access" |}]) |}.

Definition accepted : SaveResult := {| success := true; errors := None |}.

(** An organisation that accepts every permission set except [Broken]. *)
Definition conn : MetadataConnection CreatePermissionSet.Metadata :=
  {| metadata_upsert := λ _ md,
       if decide (CreatePermissionSet.fullName md = Some "Broken")
       then Ok (ReplyMany [Some rejected])
       else Ok (ReplyOne (Some accepted)) |}.

Definition caseField : FieldPermissionArg :=
  {| fpa_field := Some "Case.Origin"; fpa_readable := None; fpa_editable := Some true |}.

Definition permissionSet (name : option string) : CreatePermissionSet.Args :=
  {| CreatePermissionSet.developerName := name;
     CreatePermissionSet.label := Some "Support";
     CreatePermissionSet.userLicense := None;
     CreatePermissionSet.description := Some "";
     CreatePermissionSet.objectPermissions := None;
     CreatePermissionSet.fieldPermissions := Some [caseField];
     CreatePermissionSet.classAccesses := Some [];
     CreatePermissionSet.pageAccesses := None;
     CreatePermissionSet.tabSettings :=
       Some [{| tba_tab := Some "standard-Case"; tba_visibility := None |}];
     CreatePermissionSet.applicationVisibilities := None;
     CreatePermissionSet.userPermissions := None |}.

Definition profile : CreateProfile.Args :=
  {| CreateProfile.profileName := Some "Tier1";
     CreateProfile.userLicense := None;
     CreateProfile.description := Some "";
     CreateProfile.objectPermissions := None;
     CreateProfile.fieldPermissions := Some [caseField];
     CreateProfile.classAccesses := Some [];
     CreateProfile.pageAccesses := None;
     CreateProfile.applicationVisibilities := None;
     CreateProfile.tabVisibilities :=
       Some [{| tba_tab := Some "standard-Case"; tba_visibility := None |}];
     CreateProfile.userPermissions := None |}.

(** An organisation with one flow definition whose latest version is 3;
    [toolingUp] says whether the Tooling API answers. *)
Definition flowConn (toolingUp : bool) : FlowConnection :=
  {| flow_upsert := λ _ _, Ok (ReplyOne (Some accepted));
     tooling_query := λ soql,
       if toolingUp then
         Ok {| tr_records :=
                 [{| tr_Id := if decide (soql = CreateFlow.definitionQuery "My_Flow")
                              then "300" else "301";
                     tr_VersionNumber := 3 |}] |}
       else Err (ThrownError "INVALID_SESSION_ID");
     tooling_update := λ _ _ _, Ok tt |}.

Definition flow (st : option string) (act : option bool) (md : option Json)
    : CreateFlow.Args :=
  {| CreateFlow.developerName := Some "My_Flow";
     CreateFlow.status := st;
     CreateFlow.activate := act;
     CreateFlow.flowMetadata := md |}.

Definition flowBody : Json :=
  JObj [("label", JStr "My Flow"); ("fullName", JStr "Other_Name");
        ("status", JStr "Draft")].

End SampleMetadata.

(** ** Sample calls that fail *)

Module SampleFailures.

(** A call for report [Leads] with the given object name, report type
    and columns; every argument that is not listed is absent. *)
Definition args (object : option string) (type : option ReportTypeArg)
    (cols : option (list string)) : CreateReportArgs :=
  {| reportName := Some "Leads";
     objectName := object;
     columns := cols;
     filters := None;
     reportType := type;
     folderName := Some "Public";
     folderId := None;
     id := None;
     reportFormat := None;
     reportBooleanFilter := None;
     reportFilters := None;
     detailColumns := None;
     developerName := None;
     currency := None;
     aggregates := None;
     groupingsDown := None;
     groupingsAcross := None;
     reportMetadata := None;
     scope := None;
     showGrandTotal := None;
     showSubtotals := None;
     hasDetailRows := None;
     hasRecordCount := None;
     presentationOptions := None;
     chart := None;
     crossFilters := None;
     standardDateFilter := None;
     standardFilters := None;
     division := None;
     dashboardSetting := None;
     userOrHierarchyFilterId := None;
     supportsRoleHierarchy := None;
     historicalSnapshotDates := None |}.

(** A connection whose queries all throw a value that is no [Error]. *)
Definition offline : Connection :=
  {| query := λ _, Err (ThrownValue "ECONNRESET");
     request_get := λ _, Err (ThrownValue "ECONNRESET");
     request_post := λ _ _, Err (ThrownValue "ECONNRESET");
     version := None;
     instanceUrl := None |}.

Definition bogusFilter : FilterArg :=
  {| f_field := Some "Bogus"; f_operator := Some "equals"; f_value := Some "x" |}.

(** An organisation that accepts every profile. *)
Definition profileConn : MetadataConnection CreateProfile.Metadata :=
  {| metadata_upsert := λ _ _,
       Ok (ReplyMany [Some {| success := true; errors := None |}]) |}.

End SampleFailures.

(** * Properties of the engine *)

Lemma bindRes_Ok {A B : Type} (r : Res A) (k : A -> Res B) (b : B) :
  bindRes r k = Ok b -> exists a, r = Ok a /\ k a = Ok b.
Proof. destruct r as [a|e]; simpl; [eauto | discriminate]. Qed.

(** Splits a hypothesis [x <- r;; k = Ok b] into its two halves. *)
Ltac bind_inv H :=
  let a := fresh "a" in
  let Ha := fresh "Hstep" in
  apply bindRes_Ok in H as (a & Ha & H).

Lemma truthy_Some (o : option string) :
  truthy o = true -> exists s, o = Some s /\ s <> "".
Proof.
  destruct o as [s|]; simpl; [|discriminate].
  intros H. exists s. split; [reflexivity|].
  intros ->. discriminate.
Qed.

Lemma truthy_Some_ne (s : string) : s <> "" -> truthy (Some s) = true.
Proof. intros H. simpl. rewrite bool_decide_eq_false_2; auto. Qed.

(** ** Strings *)

Lemma append_assoc (a b c : string) : (a +:+ b) +:+ c = a +:+ b +:+ c.
Proof.
  induction a as [|x a IH]; [reflexivity|].
  change (String x ((a +:+ b) +:+ c) = String x (a +:+ b +:+ c)).
  f_equal. exact IH.
Qed.

Lemma append_empty_r (a : string) : a +:+ "" = a.
Proof.
  induction a as [|x a IH]; [reflexivity|].
  change (String x (a +:+ "") = String x a).
  f_equal. exact IH.
Qed.

Lemma contains_refl (t : string) : JsString.contains t t.
Proof. exists "", "". rewrite append_empty_r. reflexivity. Qed.

Lemma contains_app_l (s u t : string) :
  JsString.contains s t -> JsString.contains (s +:+ u) t.
Proof.
  intros (pre & post & ->). exists pre, (post +:+ u).
  rewrite !append_assoc. reflexivity.
Qed.

Lemma contains_app_r (s u t : string) :
  JsString.contains s t -> JsString.contains (u +:+ s) t.
Proof.
  intros (pre & post & ->). exists (u +:+ pre), post.
  rewrite !append_assoc. reflexivity.
Qed.

(** Every member of a joined list occurs in the result. *)
Lemma join_contains (sep : string) (l : list string) (x : string) :
  x ∈ l -> JsString.contains (JsString.join sep l) x.
Proof.
  induction l as [|y l IH]; intros Hx; [inversion Hx|].
  apply elem_of_cons in Hx as [->|Hx].
  - destruct l; simpl; [apply contains_refl|].
    apply contains_app_l, contains_refl.
  - destruct l as [|z l]; [inversion Hx|].
    change (JsString.join sep (y :: z :: l))
      with (y +:+ sep +:+ JsString.join sep (z :: l)).
    apply contains_app_r, contains_app_r, IH, Hx.
Qed.

(** Stripping a stripped string changes nothing. *)
Lemma filter_idem (p : ascii -> bool) (s : string) :
  JsString.filter p (JsString.filter p s) = JsString.filter p s.
Proof.
  induction s as [|c s IH]; simpl; [reflexivity|].
  destruct (p c) eqn:E; simpl; [rewrite E, IH; reflexivity | exact IH].
Qed.

Lemma ascii_toUpperCase_idem (s : string) :
  JsString.ascii_toUpperCase (JsString.ascii_toUpperCase s) = JsString.ascii_toUpperCase s.
Proof.
  unfold JsString.ascii_toUpperCase.
  induction s as [|c s IH]; simpl; [reflexivity|]. rewrite IH. f_equal.
  destruct c as [[] [] [] [] [] [] [] []]; reflexivity.
Qed.

(** ** Sets and ordered objects *)

Lemma setOf_elem (x : string) (l seen : list string) :
  x ∈ setOf seen l <-> x ∈ seen \/ x ∈ l.
Proof.
  revert seen. induction l as [|y l IH]; intros seen; simpl.
  - split; [auto | intros [H|H]; [exact H | inversion H]].
  - rewrite IH, elem_of_cons. destruct (decide (y ∈ seen)) as [Hy|Hy].
    + split; [intros [H|H]; auto | intros [H|[->|H]]; auto].
    + rewrite elem_of_app, list_elem_of_singleton.
      split; [intros [[H|H]|H]; auto | intros [H|[H|H]]; auto].
Qed.


Lemma mapRes_Ok {A B : Type} (f : A -> Res B) (l : list A) (l' : list B) :
  mapRes f l = Ok l' -> Forall2 (fun x y => f x = Ok y) l l'.
Proof.
  revert l'. induction l as [|x l IH]; simpl; intros l' H.
  - injection H as <-. constructor.
  - bind_inv H. bind_inv H. injection H as <-.
    constructor; [assumption | apply IH; assumption].
Qed.


Lemma mapRes_pure {A B : Type} (f : A -> Res B) (g : A -> B) (l : list A) :
  (forall x, x ∈ l -> f x = Ok (g x)) -> mapRes f l = Ok (g <$> l).
Proof.
  induction l as [|x l IH]; intros H; simpl; [reflexivity|].
  rewrite (H x) by apply list_elem_of_here. simpl.
  rewrite IH; [reflexivity|]. intros y Hy. apply H, list_elem_of_further, Hy.
Qed.

(** A property that is read is among the entries of the object. *)
Lemma get_in_entries {V : Type} (k : string) (o : list (string * V)) (v : V) :
  JsObj.get k o = Some v -> (k, v) ∈ o.
Proof.
  induction o as [|[k' v'] o IH]; simpl; [discriminate|].
  destruct (decide (k = k')) as [->|_].
  - intros [= ->]. apply list_elem_of_here.
  - intros H. apply list_elem_of_further, IH, H.
Qed.

Lemma get_in_keys {V : Type} (k : string) (o : list (string * V)) (v : V) :
  JsObj.get k o = Some v -> k ∈ JsObj.keys o.
Proof.
  intros H. apply get_in_entries in H.
  unfold JsObj.keys. apply list_elem_of_fmap. exists (k, v). auto.
Qed.

Lemma get_None_keys {V : Type} (k : string) (o : list (string * V)) :
  JsObj.get k o = None <-> k ∉ JsObj.keys o.
Proof.
  unfold JsObj.keys. induction o as [|[k' v'] o IH]; simpl.
  - split; [intros _ H; inversion H | reflexivity].
  - rewrite not_elem_of_cons. destruct (decide (k = k')) as [->|Hne].
    + split; [discriminate | intros [H _]; congruence].
    + rewrite IH. tauto.
Qed.

Lemma replace_keys {V : Type} (k : string) (v : V) (o : list (string * V)) :
  JsObj.keys (JsObj.replace k v o) = JsObj.keys o.
Proof.
  unfold JsObj.keys. induction o as [|[k0 v0] o IH]; simpl; [reflexivity|].
  destruct (decide (k = k0)) as [->|Hne]; simpl; [reflexivity|].
  f_equal. exact IH.
Qed.

Lemma replace_values {V : Type} (k : string) (v : V) (o : list (string * V)) (v' : V) :
  v' ∈ JsObj.values (JsObj.replace k v o) -> v' = v \/ v' ∈ JsObj.values o.
Proof.
  unfold JsObj.values. induction o as [|[k0 v0] o IH]; simpl.
  - intros H. inversion H.
  - destruct (decide (k = k0)) as [->|Hne]; simpl; rewrite !elem_of_cons.
    + tauto.
    + intros [H|H]; [auto | apply IH in H; tauto].
Qed.

(** A created array-index property joins the entries. *)
Lemma insertIndex_elem {V : Type} (n : N) (k : string) (v : V)
    (o : list (string * V)) (x : string * V) :
  x ∈ JsObj.insertIndex n k v o <-> x = (k, v) \/ x ∈ o.
Proof.
  induction o as [|[k0 v0] o IH]; simpl.
  - rewrite list_elem_of_singleton. split; [auto | intros [H|H]; [exact H | inversion H]].
  - destruct (JsObj.arrayIndex k0) as [n'|]; [destruct (n' <? n)%N|];
      rewrite ?elem_of_cons, ?IH; tauto.
Qed.

(** The entries of an object after an assignment that creates a property. *)
Lemma set_new_elem {V : Type} (k : string) (v : V) (o : list (string * V))
    (x : string * V) :
  k <> "__proto__" -> JsObj.get k o = None ->
  (x ∈ JsObj.set k v o <-> x = (k, v) \/ x ∈ o).
Proof.
  intros Hk Hget. unfold JsObj.set.
  destruct (decide (k = "__proto__")) as [?|_]; [contradiction|].
  rewrite Hget. destruct (JsObj.arrayIndex k) as [n|].
  - apply insertIndex_elem.
  - rewrite elem_of_app, list_elem_of_singleton. tauto.
Qed.

Lemma set_keys {V : Type} (k : string) (v : V) (o : list (string * V)) (k' : string) :
  k' ∈ JsObj.keys (JsObj.set k v o)
  <-> (k' = k /\ k <> "__proto__") \/ k' ∈ JsObj.keys o.
Proof.
  destruct (decide (k = "__proto__")) as [Hk|Hk].
  - unfold JsObj.set. rewrite decide_True by exact Hk. tauto.
  - destruct (JsObj.get k o) as [v0|] eqn:Hget.
    + unfold JsObj.set. rewrite decide_False by exact Hk. rewrite Hget.
      rewrite replace_keys. apply get_in_keys in Hget.
      split; [auto | intros [[-> _]|H]; assumption].
    + unfold JsObj.keys. rewrite !list_elem_of_fmap. split.
      * intros ([k1 v1] & -> & Hx). apply set_new_elem in Hx; [|assumption..].
        destruct Hx as [[= -> ->]|Hx]; [auto|]. right. exists (k1, v1). auto.
      * intros [[-> _]|([k1 v1] & -> & Hx)].
        -- exists (k, v). split; [reflexivity|]. apply set_new_elem; auto.
        -- exists (k1, v1). split; [reflexivity|]. apply set_new_elem; auto.
Qed.

Lemma set_values {V : Type} (k : string) (v : V) (o : list (string * V)) (v' : V) :
  v' ∈ JsObj.values (JsObj.set k v o)
  -> (v' = v /\ k <> "__proto__") \/ v' ∈ JsObj.values o.
Proof.
  destruct (decide (k = "__proto__")) as [Hk|Hk].
  - unfold JsObj.set. rewrite decide_True by exact Hk. tauto.
  - destruct (JsObj.get k o) as [v0|] eqn:Hget.
    + unfold JsObj.set. rewrite decide_False by exact Hk. rewrite Hget.
      intros H. apply replace_values in H. tauto.
    + unfold JsObj.values. rewrite !list_elem_of_fmap.
      intros ([k1 v1] & -> & Hx). apply set_new_elem in Hx; [|assumption..].
      destruct Hx as [[= -> ->]|Hx]; [auto|]. right. exists (k1, v1). auto.
Qed.

(** The assignment leaves the other own properties as they are. *)
Lemma get_replace_ne {V : Type} (k k' : string) (v : V) (o : list (string * V)) :
  k' <> k -> JsObj.get k' (JsObj.replace k v o) = JsObj.get k' o.
Proof.
  intros Hne. induction o as [|[k0 v0] o IH]; simpl; [reflexivity|].
  destruct (decide (k = k0)) as [->|Hk]; simpl.
  - rewrite !decide_False by exact Hne. reflexivity.
  - destruct (decide (k' = k0)); [reflexivity | exact IH].
Qed.

Lemma get_replace_eq {V : Type} (k : string) (v v0 : V) (o : list (string * V)) :
  JsObj.get k o = Some v0 -> JsObj.get k (JsObj.replace k v o) = Some v.
Proof.
  induction o as [|[k0 v1] o IH]; simpl; [discriminate|].
  destruct (decide (k = k0)) as [->|Hk]; simpl.
  - rewrite decide_True by reflexivity. reflexivity.
  - rewrite decide_False by exact Hk. exact IH.
Qed.

Section Properties.

Variable toUpperCase : string -> string.
Variable toLowerCase : string -> string.

(** What an assembled document holds, property by property, for the
    properties the results below are about. *)
Lemma assembleDocument_Ok conn args folderLabel doc :
  assembleDocument toUpperCase toLowerCase conn args folderLabel = Ok doc ->
  exists maps cols filters1 down1,
    fetchMaps toUpperCase conn args = Ok maps
    /\ stepColumns toUpperCase maps args = Ok cols
    /\ stepFilters toUpperCase toLowerCase maps args = Ok filters1
    /\ stepNestedFilters toUpperCase toLowerCase maps args filters1
       = Ok (d_reportFilters doc)
    /\ stepDeveloperName args = Ok (d_developerName doc)
    /\ d_detailColumns doc = cols
    /\ d_folderId doc
       = (if truthy (folderId args) then folderId args else folderLabel)
    /\ stepGroupingsDown toUpperCase maps args = Ok down1
    /\ stepNestedGroupingsDown toUpperCase maps args down1
       = Ok (d_groupingsDown doc)
    /\ d_groupingsAcross doc
       = overriddenBy (fromNested args (λ md, nonEmpty (nm_groupingsAcross md)))
           (nonEmpty (groupingsAcross args)).
Proof.
  unfold assembleDocument. intros H.
  bind_inv H. bind_inv H. bind_inv H. bind_inv H. bind_inv H.
  bind_inv H. bind_inv H.
  injection H as <-. simpl. eauto 15.
Qed.

Lemma reportMetadataBody_Ok conn args doc :
  reportMetadataBody toUpperCase toLowerCase conn args = Ok doc ->
  exists folderLabel,
    resolveFolder conn args = Ok folderLabel
    /\ assembleDocument toUpperCase toLowerCase conn args folderLabel = Ok doc.
Proof. unfold reportMetadataBody. intros H. bind_inv H. eauto. Qed.

(** ** Developer name *)

(** The replacement is character by character. *)
Lemma replaceNonWord_get (n : string) (i : nat) :
  String.get i (JsString.replaceNonWord n)
  = (λ c, if JsString.is_word c then c else "_"%char) <$> String.get i n.
Proof.
  revert i. induction n as [|c n IH]; intros i; simpl; [reflexivity|].
  destruct i; simpl; [reflexivity | apply IH].
Qed.

(** C9: without a [developerName] string the document's [developerName]
    is the report name with every character outside [[A-Za-z0-9_]]
    replaced by an underscore, so that ["My Report!"] gives
    ["My_Report_"]; a [developerName] string that was supplied is used
    as it is. *)
Theorem developerName_derived conn args doc :
  reportMetadataBody toUpperCase toLowerCase conn args = Ok doc ->
  match developerName args with
  | Some supplied => d_developerName doc = supplied
  | None =>
      exists name, reportName args = Some name
        /\ d_developerName doc = JsString.replaceNonWord name
        /\ (forall i, String.get i (d_developerName doc)
                      = (λ c, if JsString.is_word c then c else "_"%char)
                          <$> String.get i name)
        /\ (name = "My Report!" -> d_developerName doc = "My_Report_")
  end.
Proof.
  intros H.
  apply reportMetadataBody_Ok in H as (fl & _ & H).
  apply assembleDocument_Ok in H as (maps & cols & f1 & d1 & _ & _ & _ & _ & Hdev & _).
  unfold stepDeveloperName in Hdev.
  destruct (developerName args) as [d|]; [congruence|].
  destruct (reportName args) as [n|]; [|discriminate].
  injection Hdev as Hdev. exists n. rewrite <- Hdev.
  split; [reflexivity|]. split; [reflexivity|].
  split; [intros i; apply replaceNonWord_get|].
  intros ->. reflexivity.
Qed.

(** ** Folder reference *)

(** C10: a non-empty [folderId] argument is the document's [folderId],
    whatever folder the lookups resolved. *)
Theorem folderId_argument_verbatim conn args doc supplied :
  reportMetadataBody toUpperCase toLowerCase conn args = Ok doc ->
  folderId args = Some supplied ->
  supplied <> "" ->
  d_folderId doc = Some supplied.
Proof.
  intros H Hid Hne.
  apply reportMetadataBody_Ok in H as (fl & _ & H).
  apply assembleDocument_Ok in H as (maps & cols & f1 & d1 & _ & _ & _ & _ & _ & _ & Hf & _).
  rewrite Hf, Hid, truthy_Some_ne by assumption. reflexivity.
Qed.

(** C5, amended: when no non-empty [folderId] is supplied and the lookup
    by [folderName] finds nothing, the lookups do not fail, the
    assembly goes on, and the document's folder reference is the [Id] of
    the first report folder when there is one and absent when there is
    none. *)
Theorem folder_fallback_without_folderId conn args byName anyFolder :
  truthy (folderId args) = false ->
  query conn (folderByNameQuery (show (folderName args))) = Ok byName ->
  records byName = [] ->
  query conn anyReportFolderQuery = Ok anyFolder ->
  resolveFolder conn args = Ok (Id <$> head (records anyFolder))
  /\ reportMetadataBody toUpperCase toLowerCase conn args
     = assembleDocument toUpperCase toLowerCase conn args
         (Id <$> head (records anyFolder))
  /\ (forall doc,
        reportMetadataBody toUpperCase toLowerCase conn args = Ok doc ->
        d_folderId doc = Id <$> head (records anyFolder)).
Proof.
  intros Hid Hq Hnone Hany.
  assert (Hres : resolveFolder conn args = Ok (Id <$> head (records anyFolder))).
  { unfold resolveFolder. rewrite Hid, Hq. simpl. rewrite Hnone, Hany. simpl.
    destruct (records anyFolder); reflexivity. }
  split; [exact Hres|].
  assert (Hbody : reportMetadataBody toUpperCase toLowerCase conn args
                  = assembleDocument toUpperCase toLowerCase conn args
                      (Id <$> head (records anyFolder))).
  { unfold reportMetadataBody. rewrite Hres. reflexivity. }
  split; [exact Hbody|].
  intros doc H. rewrite Hbody in H.
  apply assembleDocument_Ok in H as (maps & cols & f1 & d1 & _ & _ & _ & _ & _ & _ & Hf & _).
  rewrite Hf, Hid. reflexivity.
Qed.

(** ** The boundary of the handler *)

(** C6, amended: called with an argument object, the handler returns an
    envelope and throws nothing; a failure inside its [try] block becomes
    an envelope with the error flag and the message of the failure.
    Called without an argument object it throws, and the dispatcher's own
    [catch] turns that into an error envelope. *)
Theorem handleCreateReport_envelope conn args :
  (exists envelope,
      handleCreateReport toUpperCase toLowerCase conn (Some args) = Ok envelope
      /\ (forall error,
            createReport toUpperCase toLowerCase conn args = Err error ->
            envelope = {| text := "Error creating report: " +:+ errorText error;
                          isError := true |}))
  /\ (exists error,
        handleCreateReport toUpperCase toLowerCase conn None = Err error
        /\ salesforce_create_report toUpperCase toLowerCase (Ok conn)
             (Some {| ta_reportMetadata := None |})
           = {| text := "Error: " +:+ errorText error; isError := true |}).
Proof.
  split.
  - unfold handleCreateReport.
    destruct (createReport toUpperCase toLowerCase conn args) as [env|e].
    + exists env. split; [reflexivity | discriminate].
    + eexists. split; [reflexivity|]. intros e' [= <-]. reflexivity.
  - eexists. split; reflexivity.
Qed.

(** ** Precedence among the sources of filters *)

Lemma mapNonEmptyRes_Some {A B : Type} (f : A -> Res B) (l : list A) (r : option (list B)) :
  nonEmpty (Some l) = Some l ->
  mapNonEmptyRes f (Some l) = Ok r <-> exists entries, mapRes f l = Ok entries /\ r = Some entries.
Proof.
  intros Hl. unfold mapNonEmptyRes. rewrite Hl. split.
  - intros H. bind_inv H. injection H as <-. eauto.
  - intros (entries & -> & ->). reflexivity.
Qed.

Lemma nonEmpty_Some {A : Type} (l : option (list A)) (xs : list A) :
  nonEmpty l = Some xs -> nonEmpty (Some xs) = Some xs /\ l = Some xs.
Proof. destruct l as [[|x l]|]; simpl; intros [= <-]; auto. Qed.

Lemma stepFilters_Ok maps args filters1 :
  stepFilters toUpperCase toLowerCase maps args = Ok filters1 ->
  match nonEmpty (filters args) with
  | Some fs =>
      mapNonEmptyRes (canonicalFilter toUpperCase toLowerCase maps) (Some fs)
  | None =>
      mapNonEmptyRes (canonicalRawFilter toUpperCase toLowerCase maps) (reportFilters args)
  end = Ok filters1.
Proof.
  unfold stepFilters. intros H.
  destruct (nonEmpty (filters args)) as [fs|] eqn:E.
  - bind_inv H. unfold mapNonEmptyRes.
    rewrite (proj1 (nonEmpty_Some _ _ E)). exact H.
  - unfold mapNonEmptyRes.
    destruct (nonEmpty (reportFilters args)) as [fs|].
    + bind_inv H. exact H.
    + exact H.
Qed.

Lemma stepNestedFilters_Ok maps args current filters2 :
  stepNestedFilters toUpperCase toLowerCase maps args current = Ok filters2 ->
  match fromNested args (λ md, nonEmpty (nm_filters md)) with
  | Some fs =>
      mapNonEmptyRes (canonicalFilter toUpperCase toLowerCase maps) (Some fs)
  | None =>
      match fromNested args (λ md, nonEmpty (nm_reportFilters md)) with
      | Some fs =>
          mapNonEmptyRes (canonicalRawFilter toUpperCase toLowerCase maps) (Some fs)
      | None => Ok current
      end
  end = Ok filters2.
Proof.
  unfold stepNestedFilters, fromNested. intros H.
  destruct (reportMetadata args) as [md|]; [|exact H].
  destruct (nonEmpty (nm_filters md)) as [fs|] eqn:E.
  - bind_inv H. unfold mapNonEmptyRes.
    rewrite (proj1 (nonEmpty_Some _ _ E)). exact H.
  - destruct (nonEmpty (nm_reportFilters md)) as [fs|] eqn:E'.
    + bind_inv H. unfold mapNonEmptyRes.
      rewrite (proj1 (nonEmpty_Some _ _ E')). exact H.
    + exact H.
Qed.

(** C1, amended: the document's [reportFilters] come from the first
    non-empty source in the order nested [filters], nested
    [reportFilters], [filters], [reportFilters]; with a non-empty
    [filters] argument and non-empty nested [filters] they are the
    canonical form of the nested ones. *)
Theorem reportFilters_precedence conn args doc :
  reportMetadataBody toUpperCase toLowerCase conn args = Ok doc ->
  exists maps,
    fetchMaps toUpperCase conn args = Ok maps
    /\ filtersByPrecedence toUpperCase toLowerCase maps args
       = Ok (d_reportFilters doc)
    /\ (forall md nested,
          reportMetadata args = Some md ->
          nonEmpty (nm_filters md) = Some nested ->
          exists entries,
            mapRes (canonicalFilter toUpperCase toLowerCase maps) nested = Ok entries
            /\ d_reportFilters doc = Some entries).
Proof.
  intros H.
  apply reportMetadataBody_Ok in H as (fl & _ & H).
  apply assembleDocument_Ok in H as (maps & cols & f1 & d1 & Hm & _ & Hf1 & Hf2 & _).
  exists maps. split; [exact Hm|].
  apply stepFilters_Ok in Hf1. apply stepNestedFilters_Ok in Hf2.
  assert (Hall : filtersByPrecedence toUpperCase toLowerCase maps args
                 = Ok (d_reportFilters doc)).
  { unfold filtersByPrecedence.
    destruct (fromNested args (λ md, nonEmpty (nm_filters md))); [exact Hf2|].
    destruct (fromNested args (λ md, nonEmpty (nm_reportFilters md))); [exact Hf2|].
    injection Hf2 as <-. exact Hf1. }
  split; [exact Hall|].
  intros md nested Hmd Hn.
  unfold filtersByPrecedence, fromNested in Hall. rewrite Hmd, Hn in Hall.
  apply mapNonEmptyRes_Some in Hall; [exact Hall|].
  apply (nonEmpty_Some _ _ Hn).
Qed.

(** ** Groupings *)

(** What [reportFieldMap[k]] gives for a name that is no own key. *)
Lemma lookupField_not_key maps k :
  k ∉ JsObj.keys (fieldMap maps) ->
  lookupField maps k = if JsObj.inherited k then Some (Inherited k) else None.
Proof.
  intros Hk. unfold lookupField, JsObj.read.
  rewrite (proj2 (get_None_keys k (fieldMap maps)) Hk).
  destruct (JsObj.inherited k); reflexivity.
Qed.

(** An identifier that none of the three lookups maps is upper-cased,
    unless the identifier or its upper-cased form names a member of
    [Object.prototype]. *)
Lemma mapToCanonicalReportField_unmapped maps requested :
  requested <> "" ->
  ~ hasMapping toUpperCase (fieldMap maps) requested ->
  mapToCanonicalReportField toUpperCase maps requested
  = if JsObj.inherited requested then Inherited requested
    else if JsObj.inherited (toUpperCase requested)
         then Inherited (toUpperCase requested)
         else Str (toUpperCase requested).
Proof.
  intros Hne Hno. unfold mapToCanonicalReportField.
  destruct (decide (requested = "")) as [|_]; [contradiction|].
  assert (Hkey : forall k, (k = requested \/ k = toUpperCase requested) ->
                           k ∉ JsObj.keys (fieldMap maps)).
  { intros k Hk Hin. apply Hno. exists k. split; [exact Hin|].
    destruct Hk; auto. }
  rewrite !lookupField_not_key by auto.
  destruct (JsObj.inherited requested); [reflexivity|].
  destruct (JsObj.inherited (toUpperCase requested)); [reflexivity|].
  destruct (List.find _ (fieldMap maps)) as [e|] eqn:E; [|reflexivity].
  exfalso. apply Hno. apply List.find_some in E as [Hin Hk].
  apply bool_decide_eq_true_1 in Hk.
  exists e.1. split; [|auto].
  unfold JsObj.keys. apply list_elem_of_fmap. exists e.
  split; [reflexivity | apply list_elem_of_In, Hin].
Qed.












(** ** Operator resolution *)

Lemma getValidOperatorsForField_names maps column ops :
  operatorsOfField toUpperCase maps column = Ok (Some ops) ->
  getValidOperatorsForField toUpperCase maps column = Ok (op_name <$> ops).
Proof. unfold getValidOperatorsForField. intros ->. reflexivity. Qed.

Lemma typeOfKey_Some maps key type :
  typeOfKey maps key = Some type ->
  key <> "" /\ JsObj.readMap key (fieldTypeMap maps) = Some type.
Proof.
  unfold typeOfKey. destruct (decide (key = "")); [discriminate|].
  destruct (valueTruthy _); [auto | discriminate].
Qed.

(** The second reading of the operator list gives the list of the first. *)
Lemma operatorsOfField_reread maps column ops :
  operatorsOfField toUpperCase maps column = Ok (Some ops) ->
  operatorsForLabels toUpperCase maps column = Ok ops.
Proof.
  unfold operatorsOfField, operatorsForLabels.
  destruct column as [[c|p]|]; [|discriminate..].
  destruct (decide (c = "")); [discriminate|].
  destruct (typeOfKey maps (toUpperCase c)) as [type|] eqn:E; [|discriminate].
  apply typeOfKey_Some in E as [_ ->].
  destruct (readOperators maps (Some type)); [|discriminate..].
  intros [= ->]. reflexivity.
Qed.


(** An input that differs from a name when both are normalised also
    differs from the lower-cased name, with which the source compares it. *)
Lemma normalizeText_name_mismatch op name :
  normalizeText toLowerCase op <> normalizeText toLowerCase name ->
  normalizeText toLowerCase op <> toLowerCase name.
Proof.
  intros Hne E. apply Hne. unfold normalizeText in *.
  rewrite <- E. unfold JsString.stripSpaceUnderscore.
  rewrite filter_idem. reflexivity.
Qed.


(** The resolver on a non-empty operator and a field with the operators
    [ops], of which there is at least one. *)
Lemma normalizeOperatorForField_unfold maps op column ops first rest :
  operatorsOfField toUpperCase maps column = Ok (Some ops) ->
  op_name <$> ops = first :: rest ->
  op <> "" ->
  normalizeOperatorForField toUpperCase toLowerCase maps (Some op) column
  = Ok match List.find
               (fun v => bool_decide (normalizeText toLowerCase op = toLowerCase v))
               (op_name <$> ops) with
       | Some v => v
       | None =>
           match List.find
                   (fun o => bool_decide
                               (normalizeText toLowerCase op
                                = normalizeText toLowerCase (orElse (op_label o) "")))
                   ops with
           | Some o => op_name o
           | None => if decide (op ∈ op_name <$> ops) then op else orElse (Some first) op
           end
       end.
Proof.
  intros Hops Hnames Hne. unfold normalizeOperatorForField.
  rewrite (truthy_Some_ne op Hne).
  rewrite (getValidOperatorsForField_names maps column ops Hops). simpl.
  rewrite Hnames. rewrite <- Hnames.
  destruct (List.find _ (op_name <$> ops)); [reflexivity|].
  rewrite (operatorsOfField_reread maps column ops Hops). simpl.
  destruct (List.find _ ops); reflexivity.
Qed.





(** ** Field validation *)

Lemma keyed_set_own fm canonical :
  keyed toUpperCase fm -> keyed toUpperCase (JsObj.set (toUpperCase canonical) canonical fm).
Proof.
  intros H v Hv. apply set_keys. apply set_values in Hv as [[-> Hk]|Hv]; auto.
Qed.

Lemma keyed_set_label fm label canonical :
  keyed toUpperCase fm -> toUpperCase canonical ∈ JsObj.keys fm ->
  keyed toUpperCase (JsObj.set label canonical fm).
Proof.
  intros H Hc v Hv. apply set_keys. apply set_values in Hv as [[-> Hk]|Hv]; auto.
Qed.

Section Keyed.

(** No upper-cased string is [__proto__], the one name whose assignment
    creates no property. *)
Hypothesis toUpperCase_proto : forall s, toUpperCase s <> "__proto__".

Lemma addDetailColumn_keyed m e :
  keyed toUpperCase m.1 -> keyed toUpperCase (addDetailColumn toUpperCase m e).1.
Proof.
  destruct e as [colKey info]. intros H. unfold addDetailColumn.
  destruct (truthy (ci_label info)); simpl.
  - apply keyed_set_label; [apply keyed_set_own, H | apply set_keys; auto].
  - apply keyed_set_own, H.
Qed.

Lemma addCategoryColumn_keyed m e :
  keyed toUpperCase m.1 -> keyed toUpperCase (addCategoryColumn toUpperCase m e).1.
Proof.
  destruct e as [catKey info]. intros H. unfold addCategoryColumn.
  destruct (valueTruthy (JsObj.read (toUpperCase catKey) m.1)); [exact H|].
  destruct (truthy (ci_label info)); simpl.
  - apply keyed_set_label; [apply keyed_set_own, H | apply set_keys; auto].
  - apply keyed_set_own, H.
Qed.

Lemma foldl_keyed {E : Type}
    (step : list (string * string) * gmap string string -> E
            -> list (string * string) * gmap string string)
    (l : list E) m :
  (forall m e, keyed toUpperCase m.1 -> keyed toUpperCase (step m e).1) ->
  keyed toUpperCase m.1 -> keyed toUpperCase (foldl step m l).1.
Proof.
  intros Hstep. revert m. induction l as [|e l IH]; intros m H; simpl; [exact H|].
  apply IH, Hstep, H.
Qed.

Lemma indexOf_keyed desc : keyed toUpperCase (fieldMap (indexOf toUpperCase desc)).
Proof.
  unfold indexOf. simpl.
  apply foldl_keyed.
  - intros m cat H. unfold addCategory.
    destruct (cat_columns cat); [|exact H].
    apply foldl_keyed; [apply addCategoryColumn_keyed | exact H].
  - apply foldl_keyed; [apply addDetailColumn_keyed|].
    intros v Hv. inversion Hv.
Qed.

End Keyed.

(** The index that the handler validates against is the index of a schema
    description; without a report type it is the index of the empty one. *)
Lemma fetchMaps_indexOf conn args maps :
  fetchMaps toUpperCase conn args = Ok maps ->
  exists desc, maps = indexOf toUpperCase desc.
Proof.
  assert (Hempty : emptyMaps
                   = indexOf toUpperCase
                       {| detailColumnInfo := None; categories := None;
                          dataTypeFilterOperatorMap := None |}) by reflexivity.
  unfold fetchMaps, buildReportFieldMap.
  destruct (reportTypeObjForMapping args) as [typeName|].
  - destruct (truthy typeName).
    + destruct (request_get conn _) as [desc|e]; [|discriminate].
      intros [= <-]. eauto.
    + intros [= <-]. eauto.
  - intros [= <-]. eauto.
Qed.

(** The message names the identifier and lists the whole allowed set. *)
Lemma invalidFieldMessage_contains maps requested kind :
  JsString.contains (invalidFieldMessage maps requested kind) requested
  /\ (forall apiName,
        apiName ∈ JsObj.values (fieldMap maps) ->
        JsString.contains (invalidFieldMessage maps requested kind) apiName).
Proof.
  unfold invalidFieldMessage. split.
  - eexists _, _. reflexivity.
  - intros apiName H.
    do 5 apply contains_app_r. apply contains_app_l, join_contains.
    unfold allowedFields. apply setOf_elem. auto.
Qed.

(** The set [allowed] holds the canonical names of the index. *)
Lemma allowedFields_Str maps (v : JsValue) :
  v ∈ Str <$> allowedFields maps <-> v ∈ Str <$> JsObj.values (fieldMap maps).
Proof.
  rewrite !list_elem_of_fmap. unfold allowedFields.
  split; intros (x & -> & Hx); exists x; (split; [reflexivity|]);
    apply setOf_elem in Hx || apply setOf_elem; [|auto].
  destruct Hx as [Hx|Hx]; [inversion Hx | exact Hx].
Qed.

(** The validation stops at the first entry that it does not accept. *)
Lemma throwIfInvalidFields_first maps fieldsArr kind requested :
  Some requested ∈ fieldsArr ->
  requested <> "" ->
  ~ accepted toUpperCase maps (Some requested) ->
  exists before offending after,
    fieldsArr = before ++ Some offending :: after
    /\ Forall (accepted toUpperCase maps) before
    /\ offending <> ""
    /\ ~ accepted toUpperCase maps (Some offending)
    /\ throwIfInvalidFields toUpperCase maps fieldsArr kind
       = Err (ThrownError (invalidFieldMessage maps offending kind)).
Proof.
  intros Hin Hne Hbad.
  induction fieldsArr as [|head rest IH]; [inversion Hin|].
  simpl. destruct (truthy head) eqn:Ehead.
  - destruct (decide (mapToCanonicalReportField toUpperCase maps (show head)
                        ∈ Str <$> allowedFields maps)) as [Hok|Hno].
    + apply elem_of_cons in Hin as [<-|Hin].
      { exfalso. apply Hbad. right. apply allowedFields_Str, Hok. }
      destruct (IH Hin) as (b & o & a & -> & Hb & Ho1 & Ho2 & Ho3).
      exists (head :: b), o, a. split; [reflexivity|].
      split; [|auto]. constructor; [|exact Hb].
      right. apply allowedFields_Str, Hok.
    + apply truthy_Some in Ehead as (h & -> & Hh).
      exists [], h, rest. split; [reflexivity|]. split; [constructor|].
      split; [exact Hh|]. split; [|reflexivity].
      intros [Hf|Hacc].
      * rewrite (truthy_Some_ne h Hh) in Hf. discriminate.
      * apply Hno, allowedFields_Str, Hacc.
  - apply elem_of_cons in Hin as [<-|Hin].
    + rewrite (truthy_Some_ne requested Hne) in Ehead. discriminate.
    + destruct (IH Hin) as (b & o & a & -> & Hb & Ho1 & Ho2 & Ho3).
      exists (head :: b), o, a. split; [reflexivity|].
      split; [|auto]. constructor; [|exact Hb]. left. exact Ehead.
Qed.

(** C7, amended: when a batch holds a non-empty identifier that has no
    case-insensitive mapping into the index of the schema, the validation
    of the batch fails as a whole, with an error whose message holds the
    first identifier of the batch that the index does not accept (every
    entry ahead of it is empty or is mapped to a canonical name) and
    every canonical name of the index. *)
Theorem throwIfInvalidFields_rejects_unmapped desc fieldsArr kind requested :
  (forall s, toUpperCase (toUpperCase s) = toUpperCase s) ->
  (forall s, toUpperCase s <> "__proto__") ->
  Some requested ∈ fieldsArr ->
  requested <> "" ->
  ~ hasMapping toUpperCase (fieldMap (indexOf toUpperCase desc)) requested ->
  exists before offending after,
    fieldsArr = before ++ Some offending :: after
    /\ Forall (accepted toUpperCase (indexOf toUpperCase desc)) before
    /\ offending <> ""
    /\ ~ accepted toUpperCase (indexOf toUpperCase desc) (Some offending)
    /\ throwIfInvalidFields toUpperCase (indexOf toUpperCase desc) fieldsArr kind
       = Err (ThrownError
                (invalidFieldMessage (indexOf toUpperCase desc) offending kind))
    /\ JsString.contains
         (invalidFieldMessage (indexOf toUpperCase desc) offending kind) offending
    /\ (forall apiName,
          apiName ∈ JsObj.values (fieldMap (indexOf toUpperCase desc)) ->
          JsString.contains
            (invalidFieldMessage (indexOf toUpperCase desc) offending kind) apiName).
Proof.
  intros Hidem Hproto Hin Hne Hno.
  destruct (throwIfInvalidFields_first (indexOf toUpperCase desc) fieldsArr kind
              requested Hin Hne) as (b & o & a & Hsplit & Hb & Ho1 & Ho2 & Ho3).
  { intros [Hf|Hacc].
    - rewrite (truthy_Some_ne requested Hne) in Hf. discriminate.
    - simpl in Hacc.
      rewrite (mapToCanonicalReportField_unmapped _ _ Hne Hno) in Hacc.
      apply list_elem_of_fmap in Hacc as (x & Hx & Hv).
      destruct (JsObj.inherited requested); [discriminate|].
      destruct (JsObj.inherited (toUpperCase requested)); [discriminate|].
      injection Hx as <-.
      apply (indexOf_keyed Hproto) in Hv. rewrite Hidem in Hv.
      apply Hno. exists (toUpperCase requested). auto. }
  exists b, o, a. split; [exact Hsplit|]. split; [exact Hb|].
  split; [exact Ho1|]. split; [exact Ho2|].
  split; [exact Ho3|]. apply invalidFieldMessage_contains.
Qed.

(** ** Priority of the detail-column catalog *)

(** The key of a category column is registered under a guard: a key that
    already carries a canonical name is left alone, together with its
    data type. *)
Lemma addCategoryColumn_guard m catKey catInfo :
  valueTruthy (JsObj.read (toUpperCase catKey) m.1) = true ->
  addCategoryColumn toUpperCase m (catKey, catInfo) = m.
Proof. intros H. unfold addCategoryColumn. rewrite H. reflexivity. Qed.

End Properties.

(** * The engine on the sample organisation *)

(** No upper-cased string is [__proto__]. *)
Lemma ascii_toUpperCase_proto (s : string) :
  JsString.ascii_toUpperCase s <> "__proto__".
Proof.
  intros H. destruct s as [|c1 [|c2 [|c3 s]]]; try discriminate H.
  injection H as _ _ H3 _.
  destruct c3 as [[] [] [] [] [] [] [] []]; vm_compute in H3; discriminate H3.
Qed.

(** The keys and the canonical names of the sample index. *)
Lemma sample_keys :
  JsObj.keys (fieldMap (indexOf Sample.upper Sample.describe))
  = ["ACCOUNTNAME"; "ACCOUNT NAME"; "AMOUNT"].
Proof. vm_compute. reflexivity. Qed.

Lemma sample_values :
  JsObj.values (fieldMap (indexOf Sample.upper Sample.describe))
  = ["AccountName"; "AccountName"; "Amount"].
Proof. vm_compute. reflexivity. Qed.

(** A key that is an array index is enumerated ahead of the keys created
    before it. *)
Lemma numbered_entries :
  fieldMap (indexOf Sample.upper Sample.numbered)
  = [("2024", "FY"); ("NAME", "Name"); ("ACCOUNT NAME", "Name"); ("FY", "FY")].
Proof. vm_compute. reflexivity. Qed.

Lemma sample_fetchMaps folders cols fs folder down nested :
  fetchMaps Sample.upper (Sample.conn folders) (Sample.args cols fs folder down nested)
  = Ok (indexOf Sample.upper Sample.describe).
Proof. vm_compute. reflexivity. Qed.

(** Closes a goal [~ hasMapping ...] over the sample index by trying each
    key against the three lookups. *)
Ltac no_sample_mapping :=
  let k := fresh "k" in
  let Hk := fresh "Hk" in
  let Hd := fresh "Hd" in
  intros (k & Hk & Hd);
  rewrite sample_keys in Hk;
  repeat (apply elem_of_cons in Hk as [->|Hk]);
  [ .. | apply elem_of_nil in Hk; exact Hk ];
  destruct Hd as [Hd|[Hd|Hd]]; vm_compute in Hd; discriminate Hd.


Lemma sample_bogus_field_unmapped :
  ~ hasMapping Sample.upper (fieldMap (indexOf Sample.upper Sample.describe)) "BOGUS_FIELD".
Proof. no_sample_mapping. Qed.

Lemma sample_empty_unmapped :
  ~ hasMapping Sample.upper (fieldMap (indexOf Sample.upper Sample.describe)) "".
Proof. no_sample_mapping. Qed.

Lemma numbered_bogus_field_unmapped :
  ~ hasMapping Sample.upper (fieldMap (indexOf Sample.upper Sample.numbered)) "BOGUS_FIELD".
Proof.
  intros (k & Hk & Hd). unfold JsObj.keys in Hk. rewrite numbered_entries in Hk.
  simpl in Hk.
  repeat (apply elem_of_cons in Hk as [->|Hk]);
    [ .. | apply elem_of_nil in Hk; exact Hk ];
    destruct Hd as [Hd|[Hd|Hd]]; vm_compute in Hd; discriminate Hd.
Qed.

(** C3: on a schema whose category column [ACC2] has the label [Name], the
    key [NAME] that the detail catalog registered for the column [Name] of
    type [string] is overwritten: after the categories it leads to [ACC2]
    of type [int], and the identifier [Name] resolves to [ACC2]. *)
Theorem category_label_overwrites_detail_key :
  JsObj.get "NAME" (fieldMap (indexOf Sample.upper Sample.detailOnly)) = Some "Name"
  /\ fieldTypeMap (indexOf Sample.upper Sample.detailOnly) !! "NAME" = Some "string"
  /\ JsObj.get "NAME" (fieldMap (indexOf Sample.upper Sample.shadowing)) = Some "ACC2"
  /\ fieldTypeMap (indexOf Sample.upper Sample.shadowing) !! "NAME" = Some "int"
  /\ mapToCanonicalReportField Sample.upper (indexOf Sample.upper Sample.shadowing) "Name"
     = Str "ACC2".
Proof. repeat split; vm_compute; reflexivity. Qed.

(** C1 as stated fails: with [filters] and nested [filters] both supplied,
    the document does not hold the filters derived from [filters]. *)
Lemma nested_filters_override_example :
  ~ (forall conn args doc maps fs md nested entries,
       reportMetadataBody Sample.upper Sample.lower conn args = Ok doc ->
       fetchMaps Sample.upper conn args = Ok maps ->
       nonEmpty (filters args) = Some fs ->
       reportMetadata args = Some md ->
       nonEmpty (nm_filters md) = Some nested ->
       mapRes (canonicalFilter Sample.upper Sample.lower maps) fs = Ok entries ->
       d_reportFilters doc = Some entries).
Proof.
  intros claim.
  pose (a := Sample.args None (Some [Sample.acmeFilter]) None None
               (Some (Sample.nestedFilters [Sample.otherFilter]))).
  assert (H : exists doc,
             reportMetadataBody Sample.upper Sample.lower
               (Sample.conn [Sample.publicFolder]) a = Ok doc
             /\ d_reportFilters doc
                = Some [{| column := Some (Str "AccountName"); operator := "notEqual";
                           value := Some "Other" |}]).
  { eexists. split; vm_compute; reflexivity. }
  destruct H as (doc & Hdoc & Hfilters).
  specialize (claim _ a doc _ [Sample.acmeFilter] _ [Sample.otherFilter]
                [{| column := Some (Str "AccountName"); operator := "equals";
                    value := Some "Acme" |}] Hdoc
                (sample_fetchMaps _ _ _ _ _ _) eq_refl eq_refl eq_refl).
  rewrite Hfilters in claim.
  assert (E : Some [{| column := Some (Str "AccountName"); operator := "notEqual";
                       value := Some "Other" |}]
              = Some [{| column := Some (Str "AccountName"); operator := "equals";
                         value := Some "Acme" |}]).
  { apply claim. vm_compute. reflexivity. }
  discriminate E.
Qed.

Lemma reportFilters_precedence_witness :
  exists doc,
    reportMetadataBody Sample.upper Sample.lower (Sample.conn [Sample.publicFolder])
      (Sample.args None (Some [Sample.acmeFilter]) None None
         (Some (Sample.nestedFilters [Sample.otherFilter]))) = Ok doc
    /\ d_reportFilters doc
       = Some [{| column := Some (Str "AccountName"); operator := "notEqual";
                  value := Some "Other" |}].
Proof.
  assert (H : exists doc,
             reportMetadataBody Sample.upper Sample.lower
               (Sample.conn [Sample.publicFolder])
               (Sample.args None (Some [Sample.acmeFilter]) None None
                  (Some (Sample.nestedFilters [Sample.otherFilter]))) = Ok doc).
  { eexists. vm_compute. reflexivity. }
  destruct H as (doc & Hdoc). exists doc. split; [exact Hdoc|].
  destruct (reportFilters_precedence _ _ _ _ _ Hdoc) as (maps & Hmaps & _ & Hnested).
  rewrite sample_fetchMaps in Hmaps. injection Hmaps as <-.
  destruct (Hnested _ [Sample.otherFilter] eq_refl eq_refl) as (entries & He & ->).
  vm_compute in He. injection He as <-. reflexivity.
Defined.







(** C5 as stated fails: with a [folderId] that matches no folder, the
    document does not refer to the first report folder of the
    organisation. *)
Lemma folder_fallback_overridden_example :
  ~ (forall conn args byId byName anyFolder first doc,
       query conn (folderByIdQuery (show (folderId args))) = Ok byId ->
       records byId = [] ->
       query conn (folderByNameQuery (show (folderName args))) = Ok byName ->
       records byName = [] ->
       query conn anyReportFolderQuery = Ok anyFolder ->
       head (records anyFolder) = Some first ->
       reportMetadataBody Sample.upper Sample.lower conn args = Ok doc ->
       d_folderId doc = Some (Id first)).
Proof.
  intros claim.
  pose (a := Sample.args None None (Some "00lMISSING") None None).
  assert (H : exists doc,
             reportMetadataBody Sample.upper Sample.lower
               (Sample.conn [Sample.publicFolder]) a = Ok doc
             /\ d_folderId doc = Some "00lMISSING").
  { eexists. split; vm_compute; reflexivity. }
  destruct H as (doc & Hdoc & Hfolder).
  specialize (claim (Sample.conn [Sample.publicFolder]) a
                {| records := [] |} {| records := [] |}
                {| records := [Sample.publicFolder] |} Sample.publicFolder doc).
  rewrite Hfolder in claim.
  assert (E : Some "00lMISSING" = Some (Id Sample.publicFolder)).
  { apply claim; try reflexivity; try exact Hdoc; vm_compute; reflexivity. }
  discriminate E.
Qed.

Lemma folder_fallback_without_folderId_witness :
  resolveFolder (Sample.conn [Sample.publicFolder])
    (Sample.args None None None None None) = Ok (Some "00l000000000001")
  /\ (exists doc,
        reportMetadataBody Sample.upper Sample.lower (Sample.conn [Sample.publicFolder])
          (Sample.args None None None None None) = Ok doc
        /\ d_folderId doc = Some "00l000000000001")
  /\ (exists doc,
        reportMetadataBody Sample.upper Sample.lower (Sample.conn [])
          (Sample.args None None None None None) = Ok doc
        /\ d_folderId doc = None).
Proof.
  destruct (folder_fallback_without_folderId Sample.upper Sample.lower
              (Sample.conn [Sample.publicFolder]) (Sample.args None None None None None)
              {| records := [] |} {| records := [Sample.publicFolder] |})
    as (Hres & _ & Hdoc); [reflexivity | vm_compute; reflexivity | reflexivity
                          | vm_compute; reflexivity |].
  destruct (folder_fallback_without_folderId Sample.upper Sample.lower
              (Sample.conn []) (Sample.args None None None None None)
              {| records := [] |} {| records := [] |})
    as (_ & _ & Hnone); [reflexivity | vm_compute; reflexivity | reflexivity
                        | vm_compute; reflexivity |].
  split; [exact Hres|]. split.
  - assert (H : exists doc,
               reportMetadataBody Sample.upper Sample.lower
                 (Sample.conn [Sample.publicFolder])
                 (Sample.args None None None None None) = Ok doc).
    { eexists. vm_compute. reflexivity. }
    destruct H as (doc & H). exists doc. split; [exact H | exact (Hdoc doc H)].
  - assert (H : exists doc,
               reportMetadataBody Sample.upper Sample.lower (Sample.conn [])
                 (Sample.args None None None None None) = Ok doc).
    { eexists. vm_compute. reflexivity. }
    destruct H as (doc & H). exists doc. split; [exact H | exact (Hnone doc H)].
Defined.

Lemma folderId_argument_verbatim_witness :
  exists doc,
    reportMetadataBody Sample.upper Sample.lower (Sample.conn [Sample.publicFolder])
      (Sample.args None None (Some "00lMISSING") None None) = Ok doc
    /\ resolveFolder (Sample.conn [Sample.publicFolder])
         (Sample.args None None (Some "00lMISSING") None None)
       = Ok (Some "00l000000000001")
    /\ d_folderId doc = Some "00lMISSING".
Proof.
  assert (H : exists doc,
             reportMetadataBody Sample.upper Sample.lower
               (Sample.conn [Sample.publicFolder])
               (Sample.args None None (Some "00lMISSING") None None) = Ok doc).
  { eexists. vm_compute. reflexivity. }
  destruct H as (doc & H). exists doc. split; [exact H|].
  split; [vm_compute; reflexivity|].
  apply (folderId_argument_verbatim Sample.upper Sample.lower _ _ doc "00lMISSING" H);
    [reflexivity | discriminate].
Defined.

Lemma developerName_derived_witness :
  exists doc,
    reportMetadataBody Sample.upper Sample.lower (Sample.conn [Sample.publicFolder])
      (Sample.args None None None None None) = Ok doc
    /\ d_developerName doc = "My_Report_".
Proof.
  assert (H : exists doc,
             reportMetadataBody Sample.upper Sample.lower
               (Sample.conn [Sample.publicFolder])
               (Sample.args None None None None None) = Ok doc).
  { eexists. vm_compute. reflexivity. }
  destruct H as (doc & H). exists doc. split; [exact H|].
  destruct (developerName_derived Sample.upper Sample.lower _ _ doc H)
    as (name & Hname & _ & _ & Hexample).
  apply Hexample. injection Hname as <-. reflexivity.
Defined.

(** C6 as stated fails: without an argument object the handler throws. *)
Lemma handleCreateReport_throws_example :
  ~ (forall conn args,
       exists envelope,
         handleCreateReport Sample.upper Sample.lower conn args = Ok envelope).
Proof.
  intros claim.
  destruct (claim (Sample.conn [Sample.publicFolder]) None) as (envelope & H).
  discriminate H.
Qed.

Lemma handleCreateReport_envelope_witness :
  handleCreateReport Sample.upper Sample.lower (Sample.conn [Sample.publicFolder])
    (Some (Sample.args (Some ["BOGUS_FIELD"]) None None None None))
  = Ok {| text := "Error creating report: " +:+ Sample.bogusColumnMessage;
          isError := true |}.
Proof.
  destruct (proj1 (handleCreateReport_envelope Sample.upper Sample.lower
                     (Sample.conn [Sample.publicFolder])
                     (Sample.args (Some ["BOGUS_FIELD"]) None None None None)))
    as (envelope & H & Herror).
  rewrite H. f_equal.
  rewrite (Herror (ThrownError Sample.bogusColumnMessage));
    [reflexivity | vm_compute; reflexivity].
Defined.

(** C7 as stated fails: the empty identifier has no mapping into the
    index, and a batch that holds it passes the validation. *)
Lemma empty_identifier_skipped_example :
  ~ (forall desc fieldsArr kind requested,
       Some requested ∈ fieldsArr ->
       ~ hasMapping Sample.upper (fieldMap (indexOf Sample.upper desc)) requested ->
       exists message,
         throwIfInvalidFields Sample.upper (indexOf Sample.upper desc) fieldsArr kind
         = Err (ThrownError message)).
Proof.
  intros claim.
  destruct (claim Sample.describe [Some ""] KColumn ""
              (list_elem_of_here _ _) sample_empty_unmapped) as (message & H).
  vm_compute in H. discriminate H.
Qed.

Lemma throwIfInvalidFields_rejects_unmapped_witness :
  (exists before after,
      [Some "account name"; Some ""; Some "BOGUS_FIELD"; Some "Other"]
      = before ++ Some "BOGUS_FIELD" :: after
      /\ Forall (accepted Sample.upper (indexOf Sample.upper Sample.numbered)) before
      /\ throwIfInvalidFields Sample.upper (indexOf Sample.upper Sample.numbered)
           [Some "account name"; Some ""; Some "BOGUS_FIELD"; Some "Other"] KColumn
         = Err (ThrownError
                  (invalidFieldMessage (indexOf Sample.upper Sample.numbered)
                     "BOGUS_FIELD" KColumn))
      /\ JsString.contains
           (invalidFieldMessage (indexOf Sample.upper Sample.numbered)
              "BOGUS_FIELD" KColumn) "Name")
  /\ invalidFieldMessage (indexOf Sample.upper Sample.numbered) "BOGUS_FIELD" KColumn
     = "Field 'BOGUS_FIELD' is not a valid column for this Salesforce report type."
       +:+ " Allowed:FY, Name]".
Proof.
  split; [|vm_compute; reflexivity].
  destruct (throwIfInvalidFields_rejects_unmapped Sample.upper Sample.numbered
              [Some "account name"; Some ""; Some "BOGUS_FIELD"; Some "Other"]
              KColumn "BOGUS_FIELD"
              ascii_toUpperCase_idem ascii_toUpperCase_proto
              (list_elem_of_further _ _ _
                 (list_elem_of_further _ _ _ (list_elem_of_here _ _)))
              ltac:(discriminate) numbered_bogus_field_unmapped)
    as (before & offending & after & Hsplit & Hbefore & Hne & Hrejected & Hthrown
        & _ & Hall).
  assert (Hoffending : offending = "BOGUS_FIELD").
  { destruct before as [|e1 [|e2 [|e3 [|e4 before]]]];
      simpl in Hsplit; inversion Hsplit; subst.
    - exfalso. apply Hrejected. right. vm_compute.
      apply list_elem_of_further, list_elem_of_here.
    - contradiction.
    - reflexivity.
    - exfalso. apply Forall_cons in Hbefore as [_ Hbefore].
      apply Forall_cons in Hbefore as [_ Hbefore].
      apply Forall_cons in Hbefore as [[Hf|Hacc] _]; [discriminate Hf|].
      vm_compute in Hacc.
      repeat (apply elem_of_cons in Hacc as [Hacc|Hacc]; [discriminate Hacc|]).
      apply elem_of_nil in Hacc. exact Hacc.
    - destruct before; discriminate. }
  subst offending. exists before, after.
  split; [exact Hsplit|]. split; [exact Hbefore|]. split; [exact Hthrown|].
  apply Hall. unfold JsObj.values. rewrite numbered_entries.
  apply list_elem_of_further, list_elem_of_here.
Defined.

(** * Further properties of the report engine *)

Section FurtherProperties.

Variable toUpperCase : string -> string.
Variable toLowerCase : string -> string.

(** ** Validation *)

(** A string that [reportFieldMap] gives is one of its canonical names. *)
Lemma lookupField_values maps k canonical :
  lookupField maps k = Some (Str canonical) ->
  canonical ∈ JsObj.values (fieldMap maps).
Proof.
  unfold lookupField, JsObj.read.
  destruct (JsObj.get k (fieldMap maps)) as [c|] eqn:E.
  - destruct (valueTruthy (Some (Str c))); [|discriminate]. intros [= <-].
    apply get_in_entries in E. unfold JsObj.values.
    apply list_elem_of_fmap. exists (k, c). auto.
  - destruct (JsObj.inherited k); simpl; discriminate.
Qed.

Lemma allowedFields_values maps x :
  x ∈ allowedFields maps <-> x ∈ JsObj.values (fieldMap maps).
Proof.
  unfold allowedFields. rewrite setOf_elem.
  split; [intros [H|H]; [inversion H | exact H] | auto].
Qed.

(** In a batch that the validation accepts, every non-empty identifier is
    mapped to a canonical name of the index. *)
Lemma throwIfInvalidFields_Ok_mapped maps fieldsArr kind :
  throwIfInvalidFields toUpperCase maps fieldsArr kind = Ok tt ->
  forall requested,
    Some requested ∈ fieldsArr -> requested <> "" ->
    mapToCanonicalReportField toUpperCase maps requested
      ∈ Str <$> JsObj.values (fieldMap maps).
Proof.
  induction fieldsArr as [|head rest IH]; simpl; intros H r Hr Hne; [inversion Hr|].
  destruct (truthy head) eqn:Ehead.
  - apply truthy_Some in Ehead as (h & -> & Hh). simpl in H.
    destruct (decide (mapToCanonicalReportField toUpperCase maps h
                        ∈ Str <$> allowedFields maps))
      as [Hok|Hno]; [|discriminate].
    apply elem_of_cons in Hr as [[= ->]|Hr].
    + apply allowedFields_Str, Hok.
    + apply IH; assumption.
  - apply elem_of_cons in Hr as [<-|Hr].
    + rewrite (truthy_Some_ne r Hne) in Ehead. discriminate.
    + apply IH; assumption.
Qed.

(** X1: a batch passes the validation exactly when every non-empty
    identifier in it is mapped to a canonical name of the index; empty and
    absent identifiers do not count. *)
Theorem throwIfInvalidFields_Ok_iff maps fieldsArr kind :
  throwIfInvalidFields toUpperCase maps fieldsArr kind = Ok tt
  <-> (forall requested,
         Some requested ∈ fieldsArr -> requested <> "" ->
         mapToCanonicalReportField toUpperCase maps requested
           ∈ Str <$> JsObj.values (fieldMap maps)).
Proof.
  split; [apply throwIfInvalidFields_Ok_mapped|].
  induction fieldsArr as [|head rest IH]; simpl; intros H; [reflexivity|].
  assert (Hrest : throwIfInvalidFields toUpperCase maps rest kind = Ok tt).
  { apply IH. intros r Hr Hne. apply H; [apply list_elem_of_further, Hr | exact Hne]. }
  destruct (truthy head) eqn:Ehead; [|exact Hrest].
  apply truthy_Some in Ehead as (h & -> & Hh). simpl.
  destruct (decide (mapToCanonicalReportField toUpperCase maps h
                      ∈ Str <$> allowedFields maps))
    as [_|Hno]; [exact Hrest|].
  exfalso. apply Hno, allowedFields_Str, H; [apply list_elem_of_here | exact Hh].
Qed.

Lemma mapToCanonicalReportField_empty maps :
  mapToCanonicalReportField toUpperCase maps "" = Str "".
Proof. unfold mapToCanonicalReportField. destruct (decide ("" = "")); congruence. Qed.

Lemma stepColumns_Ok maps args cols :
  stepColumns toUpperCase maps args = Ok cols ->
  cols = match nonEmpty (columns args) with
         | Some requested => Some (mapToCanonicalReportField toUpperCase maps <$> requested)
         | None =>
             mapNonEmpty (mapToCanonicalReportField toUpperCase maps) (detailColumns args)
         end
  /\ (forall requested c,
        cols = Some requested -> c ∈ requested ->
        c = Str "" \/ c ∈ Str <$> JsObj.values (fieldMap maps)).
Proof.
  assert (Hmapped : forall requested,
             throwIfInvalidFields toUpperCase maps (Some <$> requested) KColumn = Ok tt ->
             forall c, c ∈ mapToCanonicalReportField toUpperCase maps <$> requested ->
                       c = Str "" \/ c ∈ Str <$> JsObj.values (fieldMap maps)).
  { intros requested Hok c Hc. apply list_elem_of_fmap in Hc as (r & -> & Hr).
    destruct (decide (r = "")) as [->|Hne].
    - left. apply mapToCanonicalReportField_empty.
    - right. apply (throwIfInvalidFields_Ok_mapped _ _ _ Hok); [|exact Hne].
      apply list_elem_of_fmap. exists r. auto. }
  unfold stepColumns, mapNonEmpty. intros H.
  destruct (nonEmpty (columns args)) as [requested|].
  - bind_inv H. destruct a. injection H as <-. split; [reflexivity|].
    intros ? c [= <-]. apply Hmapped, Hstep.
  - destruct (nonEmpty (detailColumns args)) as [requested|].
    + bind_inv H. destruct a. injection H as <-. split; [reflexivity|].
      intros ? c [= <-]. apply Hmapped, Hstep.
    + injection H as <-. split; [reflexivity | discriminate].
Qed.

(** X2: the [detailColumns] of an assembled document come from [columns]
    when it is a non-empty array and otherwise from [detailColumns], and
    every entry is the empty string or a canonical name of the index. *)
Theorem detailColumns_canonical conn args doc :
  reportMetadataBody toUpperCase toLowerCase conn args = Ok doc ->
  exists maps,
    fetchMaps toUpperCase conn args = Ok maps
    /\ d_detailColumns doc
       = match nonEmpty (columns args) with
         | Some requested => Some (mapToCanonicalReportField toUpperCase maps <$> requested)
         | None =>
             mapNonEmpty (mapToCanonicalReportField toUpperCase maps) (detailColumns args)
         end
    /\ (forall cols c,
          d_detailColumns doc = Some cols -> c ∈ cols ->
          c = Str "" \/ c ∈ Str <$> JsObj.values (fieldMap maps)).
Proof.
  intros H.
  apply reportMetadataBody_Ok in H as (fl & _ & H).
  apply assembleDocument_Ok in H
    as (maps & cols & f1 & d1 & Hm & Hc & _ & _ & _ & Hd & _).
  exists maps. split; [exact Hm|]. rewrite Hd. apply stepColumns_Ok, Hc.
Qed.

(** Every member of a mapped array is the image of a member of the
    source. *)
Lemma mapRes_elem {A B : Type} (f : A -> Res B) (l : list A) (l' : list B) (y : B) :
  mapRes f l = Ok l' -> y ∈ l' -> exists x, x ∈ l /\ f x = Ok y.
Proof.
  intros H. apply mapRes_Ok in H.
  induction H as [|x y' l l' Hxy _ IH]; intros Hy; [inversion Hy|].
  apply elem_of_cons in Hy as [->|Hy].
  - exists x. split; [apply list_elem_of_here | exact Hxy].
  - destruct (IH Hy) as (x' & Hx' & E). exists x'.
    split; [apply list_elem_of_further, Hx' | exact E].
Qed.

Lemma canonicalColumn_mapped maps (requested : option string) (fieldsArr : list (option string)) :
  throwIfInvalidFields toUpperCase maps fieldsArr KFilter = Ok tt ->
  requested ∈ fieldsArr ->
  canonicalColumn maps (mapToCanonicalReportField_opt toUpperCase maps requested).
Proof.
  intros Hok Hin. destruct requested as [r|]; simpl; [|exact I].
  destruct (decide (r = "")) as [->|Hne].
  - left. apply mapToCanonicalReportField_empty.
  - right. apply (throwIfInvalidFields_Ok_mapped _ _ _ Hok); assumption.
Qed.

Lemma canonicalFilter_column maps fs entries :
  throwIfInvalidFields toUpperCase maps (f_field <$> fs) KFilter = Ok tt ->
  mapRes (canonicalFilter toUpperCase toLowerCase maps) fs = Ok entries ->
  forall f, f ∈ entries -> canonicalColumn maps (column f).
Proof.
  intros Hok Hmap f Hf.
  destruct (mapRes_elem _ _ _ _ Hmap Hf) as (a & Ha & E).
  unfold canonicalFilter in E. bind_inv E. injection E as <-. simpl.
  apply (canonicalColumn_mapped maps _ _ Hok).
  apply list_elem_of_fmap. exists a. auto.
Qed.

Lemma canonicalRawFilter_column maps fs entries :
  throwIfInvalidFields toUpperCase maps (rf_column <$> fs) KFilter = Ok tt ->
  mapRes (canonicalRawFilter toUpperCase toLowerCase maps) fs = Ok entries ->
  forall f, f ∈ entries -> canonicalColumn maps (column f).
Proof.
  intros Hok Hmap f Hf.
  destruct (mapRes_elem _ _ _ _ Hmap Hf) as (a & Ha & E).
  unfold canonicalRawFilter in E. bind_inv E. injection E as <-. simpl.
  apply (canonicalColumn_mapped maps _ _ Hok).
  apply list_elem_of_fmap. exists a. auto.
Qed.

(** X3: in an assembled document the [column] of every filter is absent,
    empty, or a canonical name of the index, whichever of the four sources
    the filters came from. *)
Theorem reportFilters_canonical conn args doc :
  reportMetadataBody toUpperCase toLowerCase conn args = Ok doc ->
  exists maps,
    fetchMaps toUpperCase conn args = Ok maps
    /\ (forall fs f,
          d_reportFilters doc = Some fs -> f ∈ fs -> canonicalColumn maps (column f)).
Proof.
  intros H.
  apply reportMetadataBody_Ok in H as (fl & _ & H).
  apply assembleDocument_Ok in H as (maps & cols & f1 & d1 & Hm & _ & Hf1 & Hf2 & _).
  exists maps. split; [exact Hm|].
  assert (H1 : forall fs f, f1 = Some fs -> f ∈ fs -> canonicalColumn maps (column f)).
  { unfold stepFilters in Hf1.
    destruct (nonEmpty (filters args)) as [direct|].
    - bind_inv Hf1. destruct a. bind_inv Hf1. injection Hf1 as <-.
      intros fs f [= <-]. eapply canonicalFilter_column; eassumption.
    - destruct (nonEmpty (reportFilters args)) as [raw|].
      + bind_inv Hf1. destruct a. bind_inv Hf1. injection Hf1 as <-.
        intros fs f [= <-]. eapply canonicalRawFilter_column; eassumption.
      + injection Hf1 as <-. discriminate. }
  unfold stepNestedFilters in Hf2.
  destruct (reportMetadata args) as [md|]; [|injection Hf2 as <-; exact H1].
  destruct (nonEmpty (nm_filters md)) as [nested|].
  - bind_inv Hf2. destruct a. bind_inv Hf2. injection Hf2 as <-.
    intros fs f [= <-]. eapply canonicalFilter_column; eassumption.
  - destruct (nonEmpty (nm_reportFilters md)) as [raw|].
    + bind_inv Hf2. destruct a. bind_inv Hf2. injection Hf2 as <-.
      intros fs f [= <-]. eapply canonicalRawFilter_column; eassumption.
    + injection Hf2 as <-. exact H1.
Qed.

(** X7: a non-empty field of the [filters] argument that the index does not
    map makes the call fail, also when the nested [reportMetadata] carries
    filters that would replace the ones derived from [filters]. *)
Theorem direct_filters_validated conn args maps fs requested :
  fetchMaps toUpperCase conn args = Ok maps ->
  nonEmpty (filters args) = Some fs ->
  Some requested ∈ f_field <$> fs ->
  requested <> "" ->
  mapToCanonicalReportField toUpperCase maps requested
    ∉ Str <$> JsObj.values (fieldMap maps) ->
  forall doc, reportMetadataBody toUpperCase toLowerCase conn args <> Ok doc.
Proof.
  intros Hmaps Hfs Hin Hne Hbad doc H.
  apply reportMetadataBody_Ok in H as (fl & _ & H).
  apply assembleDocument_Ok in H as (maps' & cols & f1 & d1 & Hm & _ & Hf1 & _).
  rewrite Hmaps in Hm. injection Hm as <-.
  unfold stepFilters in Hf1. rewrite Hfs in Hf1. bind_inv Hf1. destruct a.
  apply Hbad. apply (throwIfInvalidFields_Ok_mapped _ _ _ Hstep); assumption.
Qed.

(** X10: without a report type name (no [objectName] and no [reportType]
    object, a [null] report type, or a report type object without [type])
    the index is empty, and a [columns] argument with a non-empty entry
    makes the call fail. *)
Theorem columns_rejected_without_report_type conn args cols c :
  match reportTypeObjForMapping args with
  | Some typeName => truthy typeName = false
  | None => True
  end ->
  nonEmpty (columns args) = Some cols ->
  c ∈ cols ->
  c <> "" ->
  fetchMaps toUpperCase conn args = Ok emptyMaps
  /\ forall doc, reportMetadataBody toUpperCase toLowerCase conn args <> Ok doc.
Proof.
  intros Htype Hcols Hc Hne.
  assert (Hm : fetchMaps toUpperCase conn args = Ok emptyMaps).
  { unfold fetchMaps, buildReportFieldMap.
    destruct (reportTypeObjForMapping args); [rewrite Htype|]; reflexivity. }
  split; [exact Hm|]. intros doc H.
  apply reportMetadataBody_Ok in H as (fl & _ & H).
  apply assembleDocument_Ok in H as (maps & cols' & f1 & d1 & Hm' & Hcols' & _).
  rewrite Hm in Hm'. injection Hm' as <-.
  unfold stepColumns in Hcols'. rewrite Hcols in Hcols'. bind_inv Hcols'. destruct a.
  assert (E : mapToCanonicalReportField toUpperCase emptyMaps c
              ∈ Str <$> JsObj.values (fieldMap emptyMaps)).
  { apply (throwIfInvalidFields_Ok_mapped _ _ _ Hstep); [|exact Hne].
    apply list_elem_of_fmap. exists c. auto. }
  inversion E.
Qed.

(** ** Case-insensitive resolution *)

Lemma foldl_invariant {S E : Type} (P : S -> Prop) (step : S -> E -> S) (l : list E) s :
  (forall s e, P s -> P (step s e)) -> P s -> P (foldl step s l).
Proof.
  intros Hstep. revert s. induction l as [|e l IH]; intros s H; simpl; [exact H|].
  apply IH, Hstep, H.
Qed.

Lemma upperKeyed_set fm x canonical :
  (forall s, toUpperCase (toUpperCase s) = toUpperCase s) ->
  upperKeyed toUpperCase fm ->
  upperKeyed toUpperCase (JsObj.set (toUpperCase x) canonical fm).
Proof.
  intros Hidem H k Hk.
  apply set_keys in Hk as [[-> _]|Hk]; [apply Hidem | apply H, Hk].
Qed.

(** Every key of the index of a schema description is upper-cased. *)
Lemma indexOf_upperKeyed desc :
  (forall s, toUpperCase (toUpperCase s) = toUpperCase s) ->
  upperKeyed toUpperCase (fieldMap (indexOf toUpperCase desc)).
Proof.
  intros Hidem. unfold indexOf. simpl.
  apply (foldl_invariant (λ m, upperKeyed toUpperCase m.1)).
  - intros m cat H. unfold addCategory.
    destruct (cat_columns cat) as [cols|]; [|exact H].
    apply (foldl_invariant (λ m, upperKeyed toUpperCase m.1)); [|exact H].
    intros m' [catKey info] H'. unfold addCategoryColumn.
    destruct (valueTruthy (JsObj.read (toUpperCase catKey) m'.1)); [exact H'|].
    destruct (truthy (ci_label info)); simpl; repeat apply upperKeyed_set; assumption.
  - apply (foldl_invariant (λ m, upperKeyed toUpperCase m.1)).
    + intros m [colKey info] H. unfold addDetailColumn.
      destruct (truthy (ci_label info)); simpl; repeat apply upperKeyed_set; assumption.
    + intros k Hk. inversion Hk.
Qed.

(** A name that no plain object inherits is found in [reportFieldMap]
    only as a key of its own. *)
Lemma lookupField_own maps r c :
  JsObj.inherited r = false ->
  lookupField maps r = Some c -> r ∈ JsObj.keys (fieldMap maps).
Proof.
  intros Hr. unfold lookupField, JsObj.read. rewrite Hr.
  destruct (JsObj.get r (fieldMap maps)) as [v|] eqn:E; [|discriminate].
  intros _. eapply get_in_keys, E.
Qed.

(** X4: against the index of a schema description, two non-empty
    identifiers that differ only in case, neither of them the name of a
    member of [Object.prototype], resolve to the same value. *)
Theorem mapToCanonicalReportField_case_insensitive desc r1 r2 :
  (forall s, toUpperCase (toUpperCase s) = toUpperCase s) ->
  r1 <> "" -> r2 <> "" ->
  JsObj.inherited r1 = false -> JsObj.inherited r2 = false ->
  toUpperCase r1 = toUpperCase r2 ->
  mapToCanonicalReportField toUpperCase (indexOf toUpperCase desc) r1
  = mapToCanonicalReportField toUpperCase (indexOf toUpperCase desc) r2.
Proof.
  intros Hidem H1 H2 Hi1 Hi2 Hup.
  set (maps := indexOf toUpperCase desc).
  assert (Hexact : forall r c, JsObj.inherited r = false ->
                               lookupField maps r = Some c -> toUpperCase r = r).
  { intros r c Hr H. apply (indexOf_upperKeyed desc Hidem).
    fold maps. eapply lookupField_own; eassumption. }
  assert (Hshape : forall r, r <> "" -> JsObj.inherited r = false ->
            mapToCanonicalReportField toUpperCase maps r
            = match lookupField maps (toUpperCase r) with
              | Some canonical => canonical
              | None =>
                  match List.find
                          (λ e, bool_decide (toUpperCase (JsString.trim e.1)
                                             = toUpperCase r))
                          (fieldMap maps) with
                  | Some e => Str e.2
                  | None => Str (toUpperCase r)
                  end
              end).
  { intros r Hr Hi. unfold mapToCanonicalReportField.
    destruct (decide (r = "")); [contradiction|].
    destruct (lookupField maps r) as [c|] eqn:E; [|reflexivity].
    rewrite (Hexact r c Hi E), E. reflexivity. }
  rewrite (Hshape r1 H1 Hi1), (Hshape r2 H2 Hi2), Hup. reflexivity.
Qed.

(** ** Operators *)

(** X5: for a non-empty operator string and a field whose list of valid
    operators starts with a non-empty name, the resolved operator is one of
    the valid names of the field. *)
Theorem normalizeOperatorForField_valid maps op column ops first rest :
  operatorsOfField toUpperCase maps column = Ok (Some ops) ->
  op_name <$> ops = first :: rest ->
  first <> "" ->
  op <> "" ->
  exists resolved,
    normalizeOperatorForField toUpperCase toLowerCase maps (Some op) column
    = Ok resolved
    /\ resolved ∈ op_name <$> ops.
Proof.
  intros Hops Hnames Hfirst Hne.
  rewrite (normalizeOperatorForField_unfold toUpperCase toLowerCase
             maps op column ops first rest Hops Hnames Hne).
  eexists. split; [reflexivity|].
  destruct (List.find _ (op_name <$> ops)) as [v|] eqn:Ev.
  { apply List.find_some in Ev as [Hv _]. apply list_elem_of_In, Hv. }
  destruct (List.find _ ops) as [o|] eqn:Eo.
  { apply List.find_some in Eo as [Ho _].
    apply list_elem_of_fmap. exists o. split; [reflexivity | apply list_elem_of_In, Ho]. }
  destruct (decide (op ∈ op_name <$> ops)) as [Hin|_]; [exact Hin|].
  simpl. destruct (decide (first = "")); [contradiction|].
  rewrite Hnames. apply list_elem_of_here.
Qed.

(** ** Developer name *)

Lemma replaceNonWord_length (n : string) :
  String.length (JsString.replaceNonWord n) = String.length n.
Proof. induction n as [|c n IH]; simpl; [reflexivity | f_equal; exact IH]. Qed.

(** X6: a developer name that the handler derives from the report name has
    the length of the report name and holds only characters of
    [[A-Za-z0-9_]]. *)
Theorem derived_developerName_wellformed conn args doc :
  reportMetadataBody toUpperCase toLowerCase conn args = Ok doc ->
  developerName args = None ->
  (exists name, reportName args = Some name
                /\ String.length (d_developerName doc) = String.length name)
  /\ (forall i c,
        String.get i (d_developerName doc) = Some c -> JsString.is_word c = true).
Proof.
  intros H Hnone.
  apply reportMetadataBody_Ok in H as (fl & _ & H).
  apply assembleDocument_Ok in H as (maps & cols & f1 & d1 & _ & _ & _ & _ & Hdev & _).
  unfold stepDeveloperName in Hdev. rewrite Hnone in Hdev.
  destruct (reportName args) as [n|]; [|discriminate].
  injection Hdev as Hdev. rewrite <- Hdev. split.
  - exists n. split; [reflexivity | apply replaceNonWord_length].
  - intros i c Hc. rewrite replaceNonWord_get in Hc.
    destruct (String.get i n) as [c'|]; [|discriminate].
    simpl in Hc. injection Hc as <-.
    destruct (JsString.is_word c') eqn:E; [exact E | reflexivity].
Qed.

(** ** Failures of the remote calls *)

(** X8: when the describe call of the report type fails, the handler
    returns the error envelope that names the report type and carries the
    message of the failure. *)
Theorem schema_fetch_failure conn args folderLabel typeName error :
  resolveFolder conn args = Ok folderLabel ->
  reportTypeObjForMapping args = Some typeName ->
  truthy typeName = true ->
  request_get conn (show (instanceUrl conn)
                    +:+ "/services/data/v39.0/analytics/report-types/"
                    +:+ show typeName) = Err error ->
  handleCreateReport toUpperCase toLowerCase conn (Some args)
  = Ok {| text := "Error creating report: Failed to fetch report type metadata for '"
                  +:+ show typeName +:+ "': " +:+ errorText error;
          isError := true |}.
Proof.
  intros Hfolder Htype Htruthy Hget.
  unfold handleCreateReport, createReport. rewrite Hfolder. simpl.
  unfold assembleDocument, fetchMaps, buildReportFieldMap.
  rewrite Htype, Htruthy, Hget. reflexivity.
Qed.

(** X11: a folder lookup that throws is fatal: the handler returns the error
    envelope with the message of the failure, whether it is the lookup by
    id or name or the fallback lookup after an empty result. *)
Theorem folder_query_failure conn args error :
  (query conn (if truthy (folderId args) then folderByIdQuery (show (folderId args))
               else folderByNameQuery (show (folderName args))) = Err error
   \/ exists found,
        query conn (if truthy (folderId args) then folderByIdQuery (show (folderId args))
                    else folderByNameQuery (show (folderName args))) = Ok found
        /\ records found = []
        /\ query conn anyReportFolderQuery = Err error) ->
  handleCreateReport toUpperCase toLowerCase conn (Some args)
  = Ok {| text := "Error creating report: " +:+ errorText error; isError := true |}.
Proof.
  intros H.
  assert (Hres : resolveFolder conn args = Err error).
  { unfold resolveFolder.
    destruct H as [H|(found & H & Hnone & Hany)];
      destruct (truthy (folderId args)); rewrite H; simpl;
      try reflexivity; rewrite Hnone, Hany; reflexivity. }
  unfold handleCreateReport, createReport. rewrite Hres. reflexivity.
Qed.

(** X9: the envelope of the handler reports success exactly when the folder
    lookups and the assembly succeed and the creation request answers with
    a response that carries [reportExtendedMetadata]. *)
Theorem handleCreateReport_success_iff conn args envelope :
  handleCreateReport toUpperCase toLowerCase conn (Some args) = Ok envelope ->
  (isError envelope = false
   <-> exists folderLabel doc response,
         resolveFolder conn args = Ok folderLabel
         /\ assembleDocument toUpperCase toLowerCase conn args folderLabel = Ok doc
         /\ request_post conn (reportsUrl conn) doc = Ok (Some response)
         /\ reportExtendedMetadata response = true).
Proof.
  unfold handleCreateReport, createReport. fold (reportsUrl conn).
  destruct (resolveFolder conn args) as [fl|e]; simpl.
  2:{ intros [= <-]. split; [discriminate | intros (? & ? & ? & ? & _); discriminate]. }
  destruct (assembleDocument toUpperCase toLowerCase conn args fl) as [doc|e] eqn:Ea;
    simpl.
  2:{ intros [= <-]. split; [discriminate|].
      intros (? & ? & ? & [= <-] & Ha & _). congruence. }
  assert (Hsame : forall fl' doc' (response : CreateResult) (res : Res (option CreateResult)),
             Ok fl = Ok fl' ->
             assembleDocument toUpperCase toLowerCase conn args fl' = Ok doc' ->
             request_post conn (reportsUrl conn) doc' = Ok (Some response) ->
             request_post conn (reportsUrl conn) doc = res ->
             res = Ok (Some response)).
  { intros fl' doc' response res [= <-] Ha Hp Hres. congruence. }
  destruct (request_post conn (reportsUrl conn) doc) as [[r|]|e] eqn:Epost; simpl.
  - destruct (reportExtendedMetadata r) eqn:Er; intros [= <-]; simpl.
    + split; [|reflexivity]. intros _. exists fl, doc, r. auto.
    + split; [discriminate|].
      intros (fl' & doc' & r' & Hf & Ha & Hp & Hr).
      specialize (Hsame fl' doc' r' _ Hf Ha Hp eq_refl). congruence.
  - intros [= <-]. split; [discriminate|].
    intros (fl' & doc' & r' & Hf & Ha & Hp & Hr).
    specialize (Hsame fl' doc' r' _ Hf Ha Hp eq_refl). discriminate.
  - intros [= <-]. split; [discriminate|].
    intros (fl' & doc' & r' & Hf & Ha & Hp & Hr).
    specialize (Hsame fl' doc' r' _ Hf Ha Hp eq_refl). discriminate.
Qed.

(** ** The report type of the document *)

Lemma append_nonempty_r (a b : string) : b <> "" -> a +:+ b <> "".
Proof.
  intros Hb. destruct a as [|c a]; [exact Hb|].
  change (String c (a +:+ b) <> ""). discriminate.
Qed.

Lemma orElse_nonempty (o : option string) (d : string) : d <> "" -> orElse o d <> "".
Proof.
  intros Hd. unfold orElse. destruct o as [s|]; [|exact Hd].
  destruct (decide (s = "")); assumption.
Qed.

(** X12: when an assembled document has a [reportType], neither its [type]
    nor its [label] is empty: a missing or empty one is filled in from the
    object name or by a fixed default. *)
Theorem reportType_never_empty conn args doc spec :
  reportMetadataBody toUpperCase toLowerCase conn args = Ok doc ->
  d_reportType doc = Some spec ->
  rt_type spec <> "" /\ rt_label spec <> "".
Proof.
  intros H. apply reportMetadataBody_Ok in H as (fl & _ & H).
  unfold assembleDocument in H.
  bind_inv H. bind_inv H. bind_inv H. bind_inv H. bind_inv H.
  bind_inv H. bind_inv H.
  injection H as <-. simpl. unfold reportTypeOf.
  assert (Hfill : forall type label,
             orElse type (match objectName args with
                          | Some o => o +:+ "List"
                          | None => "ObjectList"
                          end) <> ""
             /\ orElse label (match objectName args with
                              | Some o => o +:+ "s"
                              | None => "Objects"
                              end) <> "").
  { intros type label.
    split; apply orElse_nonempty; destruct (objectName args);
      try discriminate; apply append_nonempty_r; discriminate. }
  destruct (reportType args) as [[| |type label]|].
  - intros [= <-]. exact (Hfill None None).
  - destruct (objectName args); [|discriminate].
    intros [= <-]. simpl. split; apply append_nonempty_r; discriminate.
  - intros [= <-]. exact (Hfill type label).
  - destruct (objectName args); [|discriminate].
    intros [= <-]. simpl. split; apply append_nonempty_r; discriminate.
Qed.

(** ** The envelope of a validation failure *)

(** X13: when the folder lookups succeed and the [columns] argument holds
    a non-empty identifier that the index does not map, the handler
    returns the error envelope whose text names a column of the call and
    lists the allowed names. *)
Theorem invalid_column_envelope conn args folderLabel maps cols requested :
  resolveFolder conn args = Ok folderLabel ->
  fetchMaps toUpperCase conn args = Ok maps ->
  nonEmpty (columns args) = Some cols ->
  requested ∈ cols ->
  requested <> "" ->
  mapToCanonicalReportField toUpperCase maps requested
    ∉ Str <$> JsObj.values (fieldMap maps) ->
  exists offending,
    offending ∈ cols
    /\ offending <> ""
    /\ handleCreateReport toUpperCase toLowerCase conn (Some args)
       = Ok {| text := "Error creating report: "
                       +:+ invalidFieldMessage maps offending KColumn;
               isError := true |}.
Proof.
  intros Hfolder Hmaps Hcols Hin Hne Hbad.
  destruct (throwIfInvalidFields_first toUpperCase maps (Some <$> cols) KColumn requested)
    as (before & offending & after & Hsplit & _ & Hone & _ & Hthrown).
  - apply list_elem_of_fmap. exists requested. auto.
  - exact Hne.
  - intros [Hf|Hacc]; [|exact (Hbad Hacc)].
    rewrite (truthy_Some_ne requested Hne) in Hf. discriminate.
  - exists offending. split.
    + assert (Ho : Some offending ∈ Some <$> cols).
      { rewrite Hsplit. apply elem_of_app. right. apply list_elem_of_here. }
      apply list_elem_of_fmap in Ho as (c & [= ->] & Hc). exact Hc.
    + split; [exact Hone|].
      unfold handleCreateReport, createReport. rewrite Hfolder. simpl.
      unfold assembleDocument. rewrite Hmaps. simpl.
      unfold stepColumns. rewrite Hcols, Hthrown. reflexivity.
Qed.

End FurtherProperties.

(** * Properties of the metadata handlers *)

(** ** Permission sets and profiles *)

(** X14: [handleCreatePermissionSet] reports success exactly when the
    developer name is non-empty, the upsert returns, and the first of its
    results has [success]. *)
Theorem handleCreatePermissionSet_success_iff conn args :
  isError (CreatePermissionSet.handleCreatePermissionSet conn args) = false
  <-> truthy (CreatePermissionSet.developerName args) = true
      /\ exists result r,
           metadata_upsert conn "PermissionSet" (CreatePermissionSet.metadataOf args)
           = Ok result
           /\ firstResult result = Some r
           /\ success r = true.
Proof.
  unfold CreatePermissionSet.handleCreatePermissionSet.
  destruct (truthy (CreatePermissionSet.developerName args)); simpl.
  2:{ split; [discriminate | intros [? _]; discriminate]. }
  destruct (metadata_upsert conn "PermissionSet" (CreatePermissionSet.metadataOf args))
    as [result|e]; simpl.
  2:{ split; [discriminate | intros (_ & ? & ? & ? & _); discriminate]. }
  destruct (firstResult result) as [r|] eqn:Er; simpl.
  - destruct (success r) eqn:Es; simpl.
    + split; [|reflexivity]. intros _. split; [reflexivity|]. exists result, r. auto.
    + split; [discriminate|]. intros (_ & ? & r' & [= <-] & Hr & Hs). congruence.
  - split; [discriminate|]. intros (_ & ? & r' & [= <-] & Hr & _). congruence.
Qed.

(** X18: [handleCreateProfile] reports success exactly when the profile
    name is non-empty, the upsert returns, and the first of its results has
    [success]. *)
Theorem handleCreateProfile_success_iff conn args :
  isError (CreateProfile.handleCreateProfile conn args) = false
  <-> truthy (CreateProfile.profileName args) = true
      /\ exists result r,
           metadata_upsert conn "Profile" (CreateProfile.metadataOf args) = Ok result
           /\ firstResult result = Some r
           /\ success r = true.
Proof.
  unfold CreateProfile.handleCreateProfile.
  destruct (truthy (CreateProfile.profileName args)); simpl.
  2:{ split; [discriminate | intros [? _]; discriminate]. }
  destruct (metadata_upsert conn "Profile" (CreateProfile.metadataOf args))
    as [result|e]; simpl.
  2:{ split; [discriminate | intros (_ & ? & ? & ? & _); discriminate]. }
  destruct (firstResult result) as [r|] eqn:Er; simpl.
  - destruct (success r) eqn:Es; simpl.
    + split; [|reflexivity]. intros _. split; [reflexivity|]. exists result, r. auto.
    + split; [discriminate|]. intros (_ & ? & r' & [= <-] & Hr & Hs). congruence.
  - split; [discriminate|]. intros (_ & ? & r' & [= <-] & Hr & _). congruence.
Qed.

(** Every message of a list of errors occurs in the summary. *)
Lemma errorSummary_contains r l e message :
  errors r = Some (ErrorList l) ->
  e ∈ l ->
  se_message e = Some message ->
  JsString.contains (errorSummary (Some r)) message.
Proof.
  intros Herr He Hm. unfold errorSummary. rewrite Herr.
  apply join_contains, list_elem_of_fmap. exists e. rewrite Hm. auto.
Qed.

(** X15: when the first result of the upsert is a failure with a list of
    errors, the envelope of [handleCreatePermissionSet] has the error flag
    and its text holds the developer name and the message of every error. *)
Theorem handleCreatePermissionSet_failure_text conn args result r l e message :
  truthy (CreatePermissionSet.developerName args) = true ->
  metadata_upsert conn "PermissionSet" (CreatePermissionSet.metadataOf args) = Ok result ->
  firstResult result = Some r ->
  success r = false ->
  errors r = Some (ErrorList l) ->
  e ∈ l ->
  se_message e = Some message ->
  isError (CreatePermissionSet.handleCreatePermissionSet conn args) = true
  /\ JsString.contains
       (text (CreatePermissionSet.handleCreatePermissionSet conn args))
       (show (CreatePermissionSet.developerName args))
  /\ JsString.contains
       (text (CreatePermissionSet.handleCreatePermissionSet conn args)) message.
Proof.
  intros Hname Hup Hfirst Hfail Herr He Hm.
  unfold CreatePermissionSet.handleCreatePermissionSet.
  rewrite Hname, Hup. simpl. rewrite Hfirst. simpl. rewrite Hfail. simpl.
  split; [reflexivity|]. split.
  - eexists _, _. reflexivity.
  - do 3 apply contains_app_r. eapply errorSummary_contains; eassumption.
Qed.

(** X17: [handleCreateProfile] and [handleCreatePermissionSet] build the
    sections they share in the same way: from equal arguments they give
    equal sections, with the profile's [tabVisibilities] in the place of
    the permission set's [tabSettings]. *)
Theorem profile_permissionSet_sections_agree
    (p : CreateProfile.Args) (s : CreatePermissionSet.Args) :
  (CreateProfile.userLicense p = CreatePermissionSet.userLicense s ->
   CreateProfile.md_userLicense (CreateProfile.metadataOf p)
   = CreatePermissionSet.md_userLicense (CreatePermissionSet.metadataOf s))
  /\ (CreateProfile.description p = CreatePermissionSet.description s ->
      CreateProfile.md_description (CreateProfile.metadataOf p)
      = CreatePermissionSet.md_description (CreatePermissionSet.metadataOf s))
  /\ (CreateProfile.objectPermissions p = CreatePermissionSet.objectPermissions s ->
      CreateProfile.md_objectPermissions (CreateProfile.metadataOf p)
      = CreatePermissionSet.md_objectPermissions (CreatePermissionSet.metadataOf s))
  /\ (CreateProfile.fieldPermissions p = CreatePermissionSet.fieldPermissions s ->
      CreateProfile.md_fieldPermissions (CreateProfile.metadataOf p)
      = CreatePermissionSet.md_fieldPermissions (CreatePermissionSet.metadataOf s))
  /\ (CreateProfile.classAccesses p = CreatePermissionSet.classAccesses s ->
      CreateProfile.md_classAccesses (CreateProfile.metadataOf p)
      = CreatePermissionSet.md_classAccesses (CreatePermissionSet.metadataOf s))
  /\ (CreateProfile.pageAccesses p = CreatePermissionSet.pageAccesses s ->
      CreateProfile.md_pageAccesses (CreateProfile.metadataOf p)
      = CreatePermissionSet.md_pageAccesses (CreatePermissionSet.metadataOf s))
  /\ (CreateProfile.applicationVisibilities p
      = CreatePermissionSet.applicationVisibilities s ->
      CreateProfile.md_applicationVisibilities (CreateProfile.metadataOf p)
      = CreatePermissionSet.md_applicationVisibilities (CreatePermissionSet.metadataOf s))
  /\ (CreateProfile.tabVisibilities p = CreatePermissionSet.tabSettings s ->
      CreateProfile.md_tabVisibilities (CreateProfile.metadataOf p)
      = CreatePermissionSet.md_tabSettings (CreatePermissionSet.metadataOf s))
  /\ (CreateProfile.userPermissions p = CreatePermissionSet.userPermissions s ->
      CreateProfile.md_userPermissions (CreateProfile.metadataOf p)
      = CreatePermissionSet.md_userPermissions (CreatePermissionSet.metadataOf s)).
Proof. repeat split; simpl; intros ->; reflexivity. Qed.

(** ** Flows *)

Lemma spreadInto_lookup base j k :
  spreadInto base j !! k
  = match ownProperties j !! k with
    | Some v => Some v
    | None => base !! k
    end.
Proof.
  unfold ownProperties, spreadInto.
  induction (ownEntries j) as [|e l IH] using rev_ind; simpl.
  - rewrite lookup_empty. reflexivity.
  - rewrite !foldl_app. simpl.
    destruct (decide (e.1 = k)) as [<-|Hne].
    + rewrite !lookup_insert_eq. reflexivity.
    + rewrite !lookup_insert_ne by exact Hne. exact IH.
Qed.

(** X19: in the metadata that [handleCreateFlow] upserts, a property of
    [flowMetadata] wins over the [fullName] taken from [developerName], a
    non-empty [status] argument wins over the [status] of [flowMetadata],
    and every other property of [flowMetadata] is kept. *)
Theorem flow_metadata_properties args k :
  CreateFlow.metadataOf args !! k
  = if bool_decide (k = "status") && truthy (CreateFlow.status args)
    then Some (JStr (show (CreateFlow.status args)))
    else match ownProperties (default JNull (CreateFlow.flowMetadata args)) !! k with
         | Some v => Some v
         | None =>
             if bool_decide (k = "fullName")
             then Some (JStr (show (CreateFlow.developerName args)))
             else None
         end.
Proof.
  unfold CreateFlow.metadataOf.
  assert (Hbase : ({[ "fullName" := JStr (show (CreateFlow.developerName args)) ]}
                     : gmap string Json) !! k
                  = if bool_decide (k = "fullName")
                    then Some (JStr (show (CreateFlow.developerName args)))
                    else None).
  { destruct (bool_decide (k = "fullName")) eqn:E.
    - apply bool_decide_eq_true_1 in E as ->. apply lookup_singleton_eq.
    - apply bool_decide_eq_false_1 in E. apply lookup_singleton_ne. congruence. }
  destruct (truthy (CreateFlow.status args)).
  - destruct (bool_decide (k = "status")) eqn:E; simpl.
    + apply bool_decide_eq_true_1 in E as ->. apply lookup_insert_eq.
    + apply bool_decide_eq_false_1 in E.
      rewrite lookup_insert_ne by congruence.
      rewrite spreadInto_lookup, Hbase. reflexivity.
  - rewrite andb_false_r. rewrite spreadInto_lookup, Hbase. reflexivity.
Qed.

(** X20: after an upsert that succeeded, [handleCreateFlow] reports success
    whatever the activation does: the text is the success sentence followed
    by the activation note, which is empty when no activation was asked
    for and tells the failure when the first Tooling query throws. *)
Theorem flow_activation_is_soft conn args result r :
  truthy (CreateFlow.developerName args) = true ->
  isObjectValue (CreateFlow.flowMetadata args) = true ->
  flow_upsert conn "Flow" (CreateFlow.metadataOf args) = Ok result ->
  firstResult result = Some r ->
  success r = true ->
  CreateFlow.handleCreateFlow conn args
  = {| text := "Flow '" +:+ show (CreateFlow.developerName args)
               +:+ "' created/updated successfully."
               +:+ CreateFlow.activationNote conn args;
       isError := false |}
  /\ (toBoolean (CreateFlow.activate args) = false ->
      CreateFlow.status args <> Some "Active" ->
      CreateFlow.activationNote conn args = "")
  /\ (forall e,
        toBoolean (CreateFlow.activate args) = true
        \/ CreateFlow.status args = Some "Active" ->
        tooling_query conn
          (CreateFlow.definitionQuery (show (CreateFlow.developerName args))) = Err e ->
        CreateFlow.activationNote conn args
        = " Activation attempt failed: " +:+ errorText e).
Proof.
  intros Hname Hobj Hup Hfirst Hok. split; [|split].
  - unfold CreateFlow.handleCreateFlow.
    rewrite Hname, Hobj, Hup. simpl. rewrite Hfirst. simpl. rewrite Hok. reflexivity.
  - intros Hact Hst. unfold CreateFlow.activationNote. rewrite Hact.
    rewrite bool_decide_eq_false_2 by exact Hst. reflexivity.
  - intros e Hreq Hq. unfold CreateFlow.activationNote, CreateFlow.activation.
    rewrite Hq. simpl.
    destruct Hreq as [->| ->]; [reflexivity|].
    rewrite bool_decide_eq_true_2 by reflexivity. rewrite orb_true_r. reflexivity.
Qed.

(** X21: when the activation returns a note, either nothing was activated
    and the note is empty, or both Tooling queries returned a record, the
    update of the flow definition to the first record of the second query
    returned, and the note names the version number of that record. *)
Theorem flow_activation_reported conn developerName note :
  CreateFlow.activation conn developerName = Ok note ->
  note = ""
  \/ exists definitions definition versions latest,
       tooling_query conn (CreateFlow.definitionQuery developerName) = Ok definitions
       /\ head (tr_records definitions) = Some definition
       /\ tooling_query conn (CreateFlow.latestVersionQuery developerName) = Ok versions
       /\ head (tr_records versions) = Some latest
       /\ tooling_update conn "FlowDefinition" (tr_Id definition) (tr_Id latest) = Ok tt
       /\ note = " Activation set to version " +:+ pretty (tr_VersionNumber latest)
                 +:+ ".".
Proof.
  unfold CreateFlow.activation. intros H.
  bind_inv H. destruct (tr_records a) as [|definition ?] eqn:Ed.
  { injection H as <-. auto. }
  bind_inv H. destruct (tr_records a0) as [|latest ?] eqn:El.
  { injection H as <-. auto. }
  bind_inv H. destruct a1. injection H as <-. right.
  exists a, definition, a0, latest. rewrite Ed, El. auto 10.
Qed.

(** ** The dispatcher and the flow handler *)

(** X22: through the dispatcher, a call of the flow tool with a developer
    name reaches the upsert only with a [flowMetadata] that is an object or
    an array: a falsy one is refused by the dispatcher, and a truthy one
    that is no object by the handler, with different texts. *)
Theorem salesforce_create_flow_guards conn flowArgs :
  truthy (CreateFlow.developerName flowArgs) = true ->
  (jsonTruthy (CreateFlow.flowMetadata flowArgs) = false ->
   salesforce_create_flow (Ok conn) (Some flowArgs)
   = {| text := "Error: developerName and flowMetadata are required";
        isError := true |})
  /\ (jsonTruthy (CreateFlow.flowMetadata flowArgs) = true ->
      isObjectValue (CreateFlow.flowMetadata flowArgs) = false ->
      salesforce_create_flow (Ok conn) (Some flowArgs)
      = {| text := "flowMetadata object is required"; isError := true |})
  /\ (isObjectValue (CreateFlow.flowMetadata flowArgs) = true ->
      salesforce_create_flow (Ok conn) (Some flowArgs)
      = match flow_upsert conn "Flow" (CreateFlow.metadataOf flowArgs) with
        | Ok result =>
            if succeeded (firstResult result) then
              {| text := "Flow '" +:+ show (CreateFlow.developerName flowArgs)
                         +:+ "' created/updated successfully."
                         +:+ CreateFlow.activationNote conn flowArgs;
                 isError := false |}
            else
              {| text := "Failed to create/update Flow '"
                         +:+ show (CreateFlow.developerName flowArgs)
                         +:+ "': " +:+ errorSummary (firstResult result);
                 isError := true |}
        | Err e =>
            {| text := "Error creating/updating Flow: " +:+ errorText e;
               isError := true |}
        end).
Proof.
  intros Hname. unfold salesforce_create_flow. simpl. rewrite Hname. simpl.
  split; [|split].
  - intros ->. reflexivity.
  - intros -> Hobj. simpl.
    unfold CreateFlow.handleCreateFlow. rewrite Hname, Hobj. reflexivity.
  - intros Hobj.
    assert (Ht : jsonTruthy (CreateFlow.flowMetadata flowArgs) = true).
    { destruct (CreateFlow.flowMetadata flowArgs) as [[]|]; simpl in *; congruence. }
    rewrite Ht. simpl.
    unfold CreateFlow.handleCreateFlow. rewrite Hname, Hobj. reflexivity.
Qed.

(** * The further properties on the samples *)

Lemma sample_bogus_rejected :
  mapToCanonicalReportField Sample.upper (indexOf Sample.upper Sample.describe) "Bogus"
    ∉ Str <$> JsObj.values (fieldMap (indexOf Sample.upper Sample.describe)).
Proof.
  rewrite sample_values.
  assert (E : mapToCanonicalReportField Sample.upper
                (indexOf Sample.upper Sample.describe) "Bogus" = Str "BOGUS")
    by (vm_compute; reflexivity).
  rewrite E. simpl. intros H.
  repeat (apply elem_of_cons in H as [H|H]; [discriminate H|]).
  inversion H.
Qed.

Lemma throwIfInvalidFields_Ok_iff_witness :
  mapToCanonicalReportField Sample.upper (indexOf Sample.upper Sample.describe)
    "account name"
    ∈ Str <$> JsObj.values (fieldMap (indexOf Sample.upper Sample.describe)).
Proof.
  apply (proj1 (throwIfInvalidFields_Ok_iff Sample.upper
                  (indexOf Sample.upper Sample.describe)
                  [Some ""; None; Some "account name"] KFilter)).
  - vm_compute. reflexivity.
  - apply list_elem_of_further, list_elem_of_further, list_elem_of_here.
  - discriminate.
Defined.

Lemma detailColumns_canonical_witness :
  exists doc,
    reportMetadataBody Sample.upper Sample.lower (Sample.conn [Sample.publicFolder])
      (Sample.args (Some ["account name"; ""; "AMOUNT"]) None None None None) = Ok doc
    /\ d_detailColumns doc = Some [Str "AccountName"; Str ""; Str "Amount"].
Proof.
  assert (H : exists doc,
             reportMetadataBody Sample.upper Sample.lower
               (Sample.conn [Sample.publicFolder])
               (Sample.args (Some ["account name"; ""; "AMOUNT"]) None None None None)
             = Ok doc).
  { eexists. vm_compute. reflexivity. }
  destruct H as (doc & H). exists doc. split; [exact H|].
  destruct (detailColumns_canonical Sample.upper Sample.lower _ _ doc H)
    as (maps & Hmaps & Hcols & _).
  rewrite sample_fetchMaps in Hmaps. injection Hmaps as <-.
  rewrite Hcols. vm_compute. reflexivity.
Defined.

Lemma reportFilters_canonical_witness :
  exists doc,
    reportMetadataBody Sample.upper Sample.lower (Sample.conn [Sample.publicFolder])
      (Sample.args None (Some [Sample.acmeFilter]) None None None) = Ok doc
    /\ forall fs f,
         d_reportFilters doc = Some fs -> f ∈ fs ->
         canonicalColumn (indexOf Sample.upper Sample.describe) (column f).
Proof.
  assert (H : exists doc,
             reportMetadataBody Sample.upper Sample.lower
               (Sample.conn [Sample.publicFolder])
               (Sample.args None (Some [Sample.acmeFilter]) None None None) = Ok doc).
  { eexists. vm_compute. reflexivity. }
  destruct H as (doc & H). exists doc. split; [exact H|].
  destruct (reportFilters_canonical Sample.upper Sample.lower _ _ doc H)
    as (maps & Hmaps & Hall).
  rewrite sample_fetchMaps in Hmaps. injection Hmaps as <-. exact Hall.
Defined.

Lemma direct_filters_validated_witness :
  exists error,
    reportMetadataBody Sample.upper Sample.lower (Sample.conn [Sample.publicFolder])
      (Sample.args None (Some [SampleFailures.bogusFilter]) None None
         (Some (Sample.nestedFilters [Sample.otherFilter])))
    = Err error.
Proof.
  destruct (reportMetadataBody Sample.upper Sample.lower
              (Sample.conn [Sample.publicFolder])
              (Sample.args None (Some [SampleFailures.bogusFilter]) None None
                 (Some (Sample.nestedFilters [Sample.otherFilter]))))
    as [doc|error] eqn:E; [|exists error; reflexivity].
  exfalso.
  apply (direct_filters_validated Sample.upper Sample.lower
           (Sample.conn [Sample.publicFolder])
           (Sample.args None (Some [SampleFailures.bogusFilter]) None None
              (Some (Sample.nestedFilters [Sample.otherFilter])))
           (indexOf Sample.upper Sample.describe) [SampleFailures.bogusFilter] "Bogus"
           (sample_fetchMaps _ _ _ _ _ _) eq_refl (list_elem_of_here _ _)
           ltac:(discriminate) sample_bogus_rejected doc E).
Defined.

Lemma columns_rejected_without_report_type_witness :
  fetchMaps Sample.upper (Sample.conn [Sample.publicFolder])
    (SampleFailures.args (Some "Lead") (Some (RTObject None (Some "Leads")))
       (Some ["Name"]))
  = Ok emptyMaps
  /\ exists error,
       reportMetadataBody Sample.upper Sample.lower (Sample.conn [Sample.publicFolder])
         (SampleFailures.args (Some "Lead") (Some (RTObject None (Some "Leads")))
            (Some ["Name"]))
       = Err error.
Proof.
  destruct (columns_rejected_without_report_type Sample.upper Sample.lower
              (Sample.conn [Sample.publicFolder])
              (SampleFailures.args (Some "Lead") (Some (RTObject None (Some "Leads")))
                 (Some ["Name"]))
              ["Name"] "Name" eq_refl eq_refl (list_elem_of_here _ _)
              ltac:(discriminate))
    as (Hmaps & Hnone).
  split; [exact Hmaps|].
  destruct (reportMetadataBody Sample.upper Sample.lower
              (Sample.conn [Sample.publicFolder])
              (SampleFailures.args (Some "Lead") (Some (RTObject None (Some "Leads")))
                 (Some ["Name"])))
    as [doc|error] eqn:E; [|exists error; reflexivity].
  exfalso. exact (Hnone doc eq_refl).
Defined.

Lemma mapToCanonicalReportField_case_insensitive_witness :
  mapToCanonicalReportField Sample.upper (indexOf Sample.upper Sample.describe)
    "account name"
  = mapToCanonicalReportField Sample.upper (indexOf Sample.upper Sample.describe)
      "Account NAME".
Proof.
  apply (mapToCanonicalReportField_case_insensitive Sample.upper Sample.describe).
  - exact ascii_toUpperCase_idem.
  - discriminate.
  - discriminate.
  - reflexivity.
  - reflexivity.
  - vm_compute. reflexivity.
Defined.

Lemma normalizeOperatorForField_valid_witness :
  exists resolved,
    normalizeOperatorForField Sample.upper Sample.lower
      (indexOf Sample.upper Sample.describe) (Some "Not Equal")
      (Some (Str "AccountName")) = Ok resolved
    /\ resolved ∈ ["equals"; "notEqual"].
Proof.
  apply (normalizeOperatorForField_valid Sample.upper Sample.lower
           (indexOf Sample.upper Sample.describe) "Not Equal" (Some (Str "AccountName"))
           [Sample.equalsOp; Sample.notEqualOp] "equals" ["notEqual"]).
  - vm_compute. reflexivity.
  - reflexivity.
  - discriminate.
  - discriminate.
Defined.

Lemma derived_developerName_wellformed_witness :
  exists doc,
    reportMetadataBody Sample.upper Sample.lower (Sample.conn [Sample.publicFolder])
      (Sample.args None None None None None) = Ok doc
    /\ String.length (d_developerName doc) = 10
    /\ forall i c,
         String.get i (d_developerName doc) = Some c -> JsString.is_word c = true.
Proof.
  assert (H : exists doc,
             reportMetadataBody Sample.upper Sample.lower
               (Sample.conn [Sample.publicFolder])
               (Sample.args None None None None None) = Ok doc).
  { eexists. vm_compute. reflexivity. }
  destruct H as (doc & H). exists doc. split; [exact H|].
  destruct (derived_developerName_wellformed Sample.upper Sample.lower _ _ doc H eq_refl)
    as ((name & Hname & Hlen) & Hword).
  split; [|exact Hword].
  rewrite Hlen. injection Hname as <-. reflexivity.
Defined.

Lemma schema_fetch_failure_witness :
  handleCreateReport Sample.upper Sample.lower (Sample.conn [Sample.publicFolder])
    (Some (SampleFailures.args (Some "Lead") None None))
  = Ok {| text := "Error creating report: Failed to fetch report type metadata for "
                  +:+ "'LeadList': NOT_FOUND";
          isError := true |}.
Proof.
  rewrite (schema_fetch_failure Sample.upper Sample.lower
             (Sample.conn [Sample.publicFolder])
             (SampleFailures.args (Some "Lead") None None)
             (Some "00l000000000001") (Some "LeadList") (ThrownError "NOT_FOUND")).
  - vm_compute. reflexivity.
  - vm_compute. reflexivity.
  - reflexivity.
  - reflexivity.
  - vm_compute. reflexivity.
Defined.

Lemma folder_query_failure_witness :
  handleCreateReport Sample.upper Sample.lower SampleFailures.offline
    (Some (SampleFailures.args (Some "Lead") None None))
  = Ok {| text := "Error creating report: ECONNRESET"; isError := true |}.
Proof.
  apply (folder_query_failure Sample.upper Sample.lower SampleFailures.offline
           (SampleFailures.args (Some "Lead") None None) (ThrownValue "ECONNRESET")).
  left. reflexivity.
Defined.

Lemma handleCreateReport_success_iff_witness :
  exists envelope,
    handleCreateReport Sample.upper Sample.lower (Sample.conn [Sample.publicFolder])
      (Some (Sample.args None None None None None)) = Ok envelope
    /\ exists folderLabel doc response,
         resolveFolder (Sample.conn [Sample.publicFolder])
           (Sample.args None None None None None) = Ok folderLabel
         /\ assembleDocument Sample.upper Sample.lower (Sample.conn [Sample.publicFolder])
              (Sample.args None None None None None) folderLabel = Ok doc
         /\ request_post (Sample.conn [Sample.publicFolder])
              (reportsUrl (Sample.conn [Sample.publicFolder])) doc = Ok (Some response)
         /\ reportExtendedMetadata response = true.
Proof.
  assert (H : exists envelope,
             handleCreateReport Sample.upper Sample.lower
               (Sample.conn [Sample.publicFolder])
               (Some (Sample.args None None None None None)) = Ok envelope
             /\ isError envelope = false).
  { eexists. split; vm_compute; reflexivity. }
  destruct H as (envelope & H & Hok). exists envelope. split; [exact H|].
  apply (proj1 (handleCreateReport_success_iff Sample.upper Sample.lower _ _ envelope H)).
  exact Hok.
Defined.

Lemma handleCreatePermissionSet_success_iff_witness :
  isError (CreatePermissionSet.handleCreatePermissionSet SampleMetadata.conn
             (SampleMetadata.permissionSet (Some "Support"))) = false
  /\ isError (CreatePermissionSet.handleCreatePermissionSet SampleMetadata.conn
                (SampleMetadata.permissionSet (Some ""))) <> false.
Proof.
  split.
  - apply (proj2 (handleCreatePermissionSet_success_iff SampleMetadata.conn
                    (SampleMetadata.permissionSet (Some "Support")))).
    split; [reflexivity|].
    exists (ReplyOne (Some SampleMetadata.accepted)), SampleMetadata.accepted.
    repeat split.
  - intros H.
    apply (proj1 (handleCreatePermissionSet_success_iff SampleMetadata.conn
                    (SampleMetadata.permissionSet (Some "")))) in H as [H _].
    discriminate H.
Defined.

Lemma handleCreateProfile_success_iff_witness :
  isError (CreateProfile.handleCreateProfile SampleFailures.profileConn
             SampleMetadata.profile) = false.
Proof.
  apply (proj2 (handleCreateProfile_success_iff SampleFailures.profileConn
                  SampleMetadata.profile)).
  split; [reflexivity|].
  eexists _, _. repeat split.
Defined.

Lemma handleCreatePermissionSet_failure_text_witness :
  JsString.contains
    (text (CreatePermissionSet.handleCreatePermissionSet SampleMetadata.conn
             (SampleMetadata.permissionSet (Some "Broken"))))
    "Insufficient access".
Proof.
  apply (handleCreatePermissionSet_failure_text SampleMetadata.conn
           (SampleMetadata.permissionSet (Some "Broken"))
           (ReplyMany [Some SampleMetadata.rejected]) SampleMetadata.rejected
           [{| se_message := Some "Invalid field: Case.Foo" |};
            {| se_message := Some "Insufficient access" |}]
           {| se_message := Some "Insufficient access" |} "Insufficient access");
    try reflexivity.
  apply list_elem_of_further, list_elem_of_here.
Defined.

Lemma profile_permissionSet_sections_agree_witness :
  CreateProfile.md_fieldPermissions (CreateProfile.metadataOf SampleMetadata.profile)
  = CreatePermissionSet.md_fieldPermissions
      (CreatePermissionSet.metadataOf (SampleMetadata.permissionSet (Some "Support")))
  /\ CreateProfile.md_tabVisibilities (CreateProfile.metadataOf SampleMetadata.profile)
     = CreatePermissionSet.md_tabSettings
         (CreatePermissionSet.metadataOf (SampleMetadata.permissionSet (Some "Support"))).
Proof.
  destruct (profile_permissionSet_sections_agree SampleMetadata.profile
              (SampleMetadata.permissionSet (Some "Support")))
    as (_ & _ & _ & Hfield & _ & _ & _ & Htab & _).
  split; [apply Hfield | apply Htab]; reflexivity.
Defined.

Lemma flow_activation_is_soft_witness :
  CreateFlow.handleCreateFlow (SampleMetadata.flowConn false)
    (SampleMetadata.flow None (Some true) (Some SampleMetadata.flowBody))
  = {| text := "Flow 'My_Flow' created/updated successfully."
               +:+ " Activation attempt failed: INVALID_SESSION_ID";
       isError := false |}.
Proof.
  destruct (flow_activation_is_soft (SampleMetadata.flowConn false)
              (SampleMetadata.flow None (Some true) (Some SampleMetadata.flowBody))
              (ReplyOne (Some SampleMetadata.accepted)) SampleMetadata.accepted
              eq_refl eq_refl eq_refl eq_refl eq_refl)
    as (Henv & _ & Hfail).
  rewrite Henv.
  rewrite (Hfail (ThrownError "INVALID_SESSION_ID")); [reflexivity | left | ]; reflexivity.
Defined.

Lemma flow_activation_reported_witness :
  exists definition latest,
    tooling_update (SampleMetadata.flowConn true) "FlowDefinition"
      (tr_Id definition) (tr_Id latest) = Ok tt
    /\ tr_Id definition = "300"
    /\ tr_Id latest = "301"
    /\ tr_VersionNumber latest = 3%Z.
Proof.
  destruct (flow_activation_reported (SampleMetadata.flowConn true) "My_Flow"
              " Activation set to version 3.")
    as [H|(definitions & definition & versions & latest & Hq1 & Hd & Hq2 & Hl & Hu & _)].
  - vm_compute. reflexivity.
  - discriminate H.
  - exists definition, latest. split; [exact Hu|].
    vm_compute in Hq1. injection Hq1 as <-.
    vm_compute in Hq2. injection Hq2 as <-.
    injection Hd as <-. injection Hl as <-. repeat split.
Defined.

Lemma salesforce_create_flow_guards_witness :
  salesforce_create_flow (Ok (SampleMetadata.flowConn true))
    (Some (SampleMetadata.flow None None (Some (JStr "<Flow/>"))))
  = {| text := "flowMetadata object is required"; isError := true |}
  /\ salesforce_create_flow (Ok (SampleMetadata.flowConn true))
       (Some (SampleMetadata.flow None None (Some (JNum 0))))
     = {| text := "Error: developerName and flowMetadata are required";
          isError := true |}.
Proof.
  split.
  - apply (proj1 (proj2 (salesforce_create_flow_guards (SampleMetadata.flowConn true)
                           (SampleMetadata.flow None None (Some (JStr "<Flow/>")))
                           eq_refl))); reflexivity.
  - apply (proj1 (salesforce_create_flow_guards (SampleMetadata.flowConn true)
                    (SampleMetadata.flow None None (Some (JNum 0))) eq_refl)).
    reflexivity.
Defined.

Lemma reportType_never_empty_witness :
  exists doc spec,
    reportMetadataBody Sample.upper Sample.lower (Sample.conn [Sample.publicFolder])
      (SampleFailures.args None (Some (RTObject (Some "") None)) None) = Ok doc
    /\ d_reportType doc = Some spec
    /\ rt_type spec <> "" /\ rt_label spec <> "".
Proof.
  assert (H : exists doc spec,
             reportMetadataBody Sample.upper Sample.lower
               (Sample.conn [Sample.publicFolder])
               (SampleFailures.args None (Some (RTObject (Some "") None)) None) = Ok doc
             /\ d_reportType doc = Some spec).
  { eexists _, _. split; vm_compute; reflexivity. }
  destruct H as (doc & spec & H & Hspec). exists doc, spec.
  split; [exact H|]. split; [exact Hspec|].
  exact (reportType_never_empty Sample.upper Sample.lower _ _ doc spec H Hspec).
Defined.

Lemma invalid_column_envelope_witness :
  exists offending,
    handleCreateReport Sample.upper Sample.lower (Sample.conn [Sample.publicFolder])
      (Some (Sample.args (Some ["Amount"; "Bogus"]) None None None None))
    = Ok {| text := "Error creating report: "
                    +:+ invalidFieldMessage (indexOf Sample.upper Sample.describe)
                          offending KColumn;
            isError := true |}.
Proof.
  destruct (invalid_column_envelope Sample.upper Sample.lower
              (Sample.conn [Sample.publicFolder])
              (Sample.args (Some ["Amount"; "Bogus"]) None None None None)
              (Some "00l000000000001") (indexOf Sample.upper Sample.describe)
              ["Amount"; "Bogus"] "Bogus")
    as (offending & _ & _ & H).
  - vm_compute. reflexivity.
  - apply sample_fetchMaps.
  - reflexivity.
  - apply list_elem_of_further, list_elem_of_here.
  - discriminate.
  - exact sample_bogus_rejected.
  - exists offending. exact H.
Defined.
